(** * NiMARE diagnostics: Jackknife, FocusCounter and FocusFilter

    A shallow embedding of [nimare/diagnostics.py].  NumPy [float64] values
    are IEEE-754 binary64 numbers, taken from the Standard Library's
    executable specification [SpecFloat]; dense 3-D arrays are a shape with
    an indexing function; pandas tables are lists of rows; Python objects
    that are mutated in place live in a store indexed by references. *)

From stdpp Require Import base option list gmap strings.
From Stdlib Require Import ZArith Lia SpecFloat.
From Stdlib Require Import DecimalString.
From Stdlib Require Import Reals Lra.

Local Open Scope Z_scope.

(** ** NumPy float64 *)

Definition float64 : Type := spec_float.

Definition prec : Z := 53.
Definition emax : Z := 1024.

Definition np_true_divide : float64 → float64 → float64 := SFdiv prec emax.
Definition np_subtract : float64 → float64 → float64 := SFsub prec emax.
Definition np_add : float64 → float64 → float64 := SFadd prec emax.
Definition np_less (x y : float64) : bool := SFltb x y.
Definition np_equal (x y : float64) : bool := SFeqb x y.

(** Conversion of a Python [int] to [float64] (round to nearest even). *)
Definition float_of_int (n : Z) : float64 := binary_normalize prec emax n 0 false.

Definition zero : float64 := S754_zero false.
Definition one : float64 := Eval vm_compute in float_of_int 1.
(** [np.finfo(np.float64).max], 1.7976931348623157e308. *)
Definition float_max : float64 := Eval vm_compute in SFmax_float prec emax.

(** [np.nan_to_num(x)] with its defaults: NaN becomes 0.0, an infinity the
    largest finite float of its sign, everything else is unchanged. *)
Definition nan_to_num (x : float64) : float64 :=
  match x with
  | S754_nan => zero
  | S754_infinity false => float_max
  | S754_infinity true => SFopp float_max
  | _ => x
  end.

(** Truth value of a float: [bool(x)], also the test [np.where(arr)] and
    [x or y] apply; only the two zeros are falsy (NaN is truthy). *)
Definition truthy (x : float64) : bool :=
  match x with
  | S754_zero _ => false
  | _ => true
  end.

(** [int(x)] for a finite float: truncation towards zero. *)
Definition int_of_float (x : float64) : Z :=
  match x with
  | S754_finite s m e =>
      let a := match e with
               | Zneg p => Z.shiftr (Zpos m) (Zpos p)
               | _ => Z.shiftl (Zpos m) e
               end in
      if s then - a else a
  | _ => 0
  end.

(** A finite float other than the two zeros. *)
Definition finite_nonzero (x : float64) : bool :=
  match x with
  | S754_finite _ _ _ => true
  | _ => false
  end.

(** ** Dense 3-D arrays *)

Definition ijk : Type := Z * Z * Z.

Definition ijk_eqb (u v : ijk) : bool :=
  let '(a, b, c) := u in
  let '(a', b', c') := v in
  (a =? a') && (b =? b') && (c =? c').

(** A NumPy array of rank three: its shape and the value at each index. *)
Record ndarray (A : Type) : Type := mk_ndarray
  { shape : nat * nat * nat;
    item : ijk → A }.
Arguments mk_ndarray {A} _ _.
Arguments shape {A} _.
Arguments item {A} _ _.

Definition arange (n : nat) : list Z := map Z.of_nat (seq 0 n).

(** All indices of an array of the given shape, in C (row-major) order. *)
Definition ndindex (sh : nat * nat * nat) : list ijk :=
  let '(n1, n2, n3) := sh in
  flat_map (fun i => flat_map (fun j => map (fun k => (i, j, k)) (arange n3))
                              (arange n2))
           (arange n1).

(** [np.vstack(np.where(mask)).T] for the boolean array [p(arr)]: the
    indices at which [p] holds, in row-major order. *)
Definition np_where {A} (p : A → bool) (arr : ndarray A) : list ijk :=
  List.filter (fun v => p (item arr v)) (ndindex (shape arr)).

Definition ravel {A} (arr : ndarray A) : list A :=
  map (item arr) (ndindex (shape arr)).

(** Sorting floats the way NumPy and Python's [sorted] do on NaN-free data,
    by insertion; a NaN compares with nothing and stays behind. *)
Fixpoint insert_sorted (x : float64) (l : list float64) : list float64 :=
  match l with
  | [] => [x]
  | y :: l' => if np_less y x then y :: insert_sorted x l' else x :: l
  end.

Definition sorted (l : list float64) : list float64 :=
  foldr insert_sorted [] l.

Fixpoint drop_repeats (l : list float64) : list float64 :=
  match l with
  | [] => []
  | x :: l' =>
      match l' with
      | y :: _ => if np_equal x y then drop_repeats l' else x :: drop_repeats l'
      | [] => [x]
      end
  end.

(** [np.unique(arr)]: the sorted distinct values of the array. *)
Definition np_unique (arr : ndarray float64) : list float64 :=
  drop_repeats (sorted (ravel arr)).

(** [(arr < 0).any()] *)
Definition any_negative (arr : ndarray float64) : bool :=
  existsb (fun x => np_less x zero) (ravel arr).

(** ** Python values shared by the three diagnostics *)

Definition deepcopy {A} (x : A) : A := x.

Definition str_of_int (n : Z) : string := NilZero.string_of_int (Z.to_int n).

(** [sep.join(parts)] *)
Fixpoint join (sep : string) (parts : list string) : string :=
  match parts with
  | [] => ""
  | [p] => p
  | p :: rest => p +:+ sep +:+ join sep rest
  end.

(** A [dict] with string keys, in insertion order. *)
Definition dict (V : Type) : Type := list (string * V).

Definition keys {V} (d : dict V) : list string := map fst d.

Definition contains {V} (d : dict V) (k : string) : bool :=
  existsb (String.eqb k) (keys d).

Fixpoint get {V} (d : dict V) (k : string) : option V :=
  match d with
  | [] => None
  | (k', v) :: d' => if String.eqb k k' then Some v else get d' k
  end.

(** Exceptions raised on the paths modelled here. *)
Inductive exception : Type :=
  | AttributeError (msg : string)
  | ValueError (msg : string).

(** [type(e).__name__] *)
Definition class_name (e : exception) : string :=
  match e with
  | AttributeError _ => "AttributeError"
  | ValueError _ => "ValueError"
  end.

(** What a call leaves behind besides its value: log records, and one
    [Task] per call of a diagnostic's [_transform] that the [Parallel]
    dispatcher runs. *)
Inductive event : Type :=
  | Warning (msg : string)
  | Info (msg : string)
  | Task (expid : string).

(** A computation that logs and may raise. *)
Definition Run (A : Type) : Type := list event * (exception + A).

Definition ret {A} (x : A) : Run A := ([], inr x).
Definition raise {A} (e : exception) : Run A := ([], inl e).
Definition emit (ev : event) : Run unit := ([ev], inr tt).

Definition bind {A B} (m : Run A) (k : A → Run B) : Run B :=
  match m with
  | (evs, inl e) => (evs, inl e)
  | (evs, inr a) => let '(evs', r) := k a in (evs ++ evs', r)
  end.

Notation "'do' x <- m ; k" := (bind m (fun x => k))
  (at level 10, x pattern, m at level 99, k at level 200).
Notation "m ;; k" := (bind m (fun _ => k))
  (at level 100, k at level 200, right associativity).

Definition trace {A} (m : Run A) : list event := fst m.
Definition outcome {A} (m : Run A) : exception + A := snd m.

Fixpoint for_each {A B} (f : A → Run B) (l : list A) : Run (list B) :=
  match l with
  | [] => ret []
  | a :: l' => do b <- f a; do bs <- for_each f l'; ret (b :: bs)
  end.

Fixpoint fold_run {A S} (f : S → A → Run S) (s : S) (l : list A) : Run S :=
  match l with
  | [] => ret s
  | a :: l' => do s' <- f s a; fold_run f s' l'
  end.

(** [Parallel(n_jobs)(delayed(f)(x) for x in xs)]: the results come back in
    submission order and a raising task aborts the call. *)
Definition Parallel {B} (f : string → Run B) (study_ids : list string) : Run (list B) :=
  for_each (fun study_id => emit (Task study_id);; f study_id) study_ids.

(** ** Images, maskers, tables *)

Definition xyz : Type := float64 * float64 * float64.

(** A 4x4 voxel-to-world matrix, row by row. *)
Definition Affine : Type := list (list float64).

Record Nifti1Image : Type := mk_image
  { get_fdata : ndarray float64;
    affine : Affine }.

Record NiftiMasker : Type := mk_masker
  { mask_img : Nifti1Image }.

Record NiftiLabelsMasker : Type := mk_labels_masker
  { labels_img : Nifti1Image }.

(** One row of a coordinates table: the study id and a world-space point. *)
Record CoordRow : Type := mk_coord
  { coord_id : string;
    coord_x : float64;
    coord_y : float64;
    coord_z : float64 }.

Definition coord_xyz (r : CoordRow) : xyz := (coord_x r, coord_y r, coord_z r).

(** A cell of a table of results. *)
Inductive cell : Type :=
  | Str (s : string)
  | Num (v : float64)
  | Int (n : Z)
  | NA.

(** A pandas [DataFrame] with a default index. *)
Record DataFrame : Type := mk_frame
  { columns : list string;
    rows : list (list cell) }.

(** A [DataFrame] whose index holds study ids, one label per row. *)
Record IndexedFrame : Type := mk_indexed
  { index : list string;
    icolumns : list string;
    values : list (list cell) }.

(** [pd.DataFrame(index=rows, columns=cols)]: every cell missing. *)
Definition new_frame (row_labels cols : list string) : IndexedFrame :=
  {| index := row_labels;
     icolumns := cols;
     values := map (fun _ => map (fun _ => NA) cols) row_labels |}.

(** [table.loc[label] = vals]: every row carrying the label is overwritten;
    a label that is not in the index adds a row; a value list of the wrong
    length is a [ValueError]. *)
Definition loc_set (t : IndexedFrame) (label : string) (vals : list cell)
  : Run IndexedFrame :=
  if negb (Nat.eqb (length vals) (length (icolumns t))) then
    raise (ValueError "cannot set a row with mismatched columns")
  else if existsb (String.eqb label) (index t) then
    ret {| index := index t;
           icolumns := icolumns t;
           values := zip_with (fun l r => if String.eqb label l then vals else r)
                              (index t) (values t) |}
  else
    ret {| index := index t ++ [label];
           icolumns := icolumns t;
           values := values t ++ [vals] |}.

(** [table.reset_index()] for an index named [id]. *)
Definition reset_index (t : IndexedFrame) : DataFrame :=
  {| columns := "id" :: icolumns t;
     rows := zip_with (fun l r => Str l :: r) (index t) (values t) |}.

Fixpoint position (c : string) (cols : list string) : option nat :=
  match cols with
  | [] => None
  | c' :: cols' => if String.eqb c c' then Some 0%nat else S <$> position c cols'
  end.

Fixpoint union_columns (seen : list string) (tables : list DataFrame) : list string :=
  match tables with
  | [] => seen
  | t :: ts =>
      union_columns
        (foldl (fun acc c => if existsb (String.eqb c) acc then acc else acc ++ [c])
               seen (columns t))
        ts
  end.

(** [pd.concat(tables, ignore_index=True, sort=False)]: the rows of all the
    tables under the union of their columns, a missing cell being [NA];
    [pd.concat] of no table at all is a [ValueError]. *)
Definition concat (tables : list DataFrame) : Run DataFrame :=
  match tables with
  | [] => raise (ValueError "No objects to concatenate")
  | _ =>
      let cols := union_columns [] tables in
      ret {| columns := cols;
             rows := flat_map
                       (fun t => map (fun r => map (fun c =>
                                        match position c (columns t) with
                                        | Some i => nth i r NA
                                        | None => NA
                                        end) cols)
                                     (rows t))
                       tables |}
  end.

(** ** Dataset, Estimator, MetaResult *)

Module Dataset.
(** Modelled from the spec: the Dataset class is not part of the sources;
    a Dataset is an ordered collection of studies with unique string ids,
    a coordinate table, image paths and metadata per study, and a default
    masker.  Assigning an attribute replaces that table and nothing
    else. *)
Record t : Type := mk
  { ids : list string;
    coordinates : list CoordRow;
    images : dict string;
    metadata : dict string;
    masker : NiftiMasker }.

Definition set_coordinates (d : t) (df : list CoordRow) : t :=
  {| ids := ids d;
     coordinates := df;
     images := images d;
     metadata := metadata d;
     masker := masker d |}.

(** Modelled from the spec: [slice(ids)] is a new Dataset holding exactly
    the studies named, with their data unchanged. *)
Definition slice (d : t) (keep : list string) : t :=
  let kept := fun id_ => existsb (String.eqb id_) keep in
  {| ids := List.filter kept (ids d);
     coordinates := List.filter (fun r => kept (coord_id r)) (coordinates d);
     images := List.filter (fun kv => kept (fst kv)) (images d);
     metadata := List.filter (fun kv => kept (fst kv)) (metadata d);
     masker := masker d |}.
End Dataset.

Module Estimator.
(** Modelled from the spec: the Estimator classes are not part of the
    sources.  [dataset] is the attribute that [hasattr] looks for: [None]
    for an Estimator without it (a pairwise one); [inputs_id] and
    [inputs_coordinates] are [inputs_["id"]] and [inputs_["coordinates"]],
    the studies retained by the fit. *)
Record t : Type := mk
  { dataset : option Dataset.t;
    inputs_id : list string;
    inputs_coordinates : list CoordRow;
    masker : NiftiMasker }.
End Estimator.

(** [masker.transform(img)], squeezed: the values at the voxels of the mask,
    in row-major order. *)
Definition masker_transform (m : NiftiMasker) (img : Nifti1Image) : list float64 :=
  map (item (get_fdata img)) (np_where truthy (get_fdata (mask_img m))).

Fixpoint index_of (v : ijk) (l : list ijk) : option nat :=
  match l with
  | [] => None
  | u :: l' => if ijk_eqb u v then Some 0%nat else S <$> index_of v l'
  end.

(** [masker.inverse_transform(vals)]: the volume of the mask's shape that
    holds [vals] at the voxels of the mask and 0 elsewhere. *)
Definition inverse_transform (m : NiftiMasker) (vals : list float64) : Nifti1Image :=
  let voxels := np_where truthy (get_fdata (mask_img m)) in
  {| get_fdata :=
       {| shape := shape (get_fdata (mask_img m));
          item := fun v => match index_of v voxels with
                           | Some i => nth i vals zero
                           | None => zero
                           end |};
     affine := affine (mask_img m) |}.

(** The mean as [scipy.ndimage] takes it: a running sum over the count. *)
Definition mean (vals : list float64) : float64 :=
  np_true_divide (foldl np_add zero vals) (float_of_int (Z.of_nat (length vals))).

(** Modelled from the spec: the per-cluster-label averaging transform maps a
    full-volume value array to one mean value per cluster id; the ids are
    the distinct labels other than the background 0, in increasing order. *)
Definition labels_of (m : NiftiLabelsMasker) : list float64 :=
  List.filter truthy (np_unique (get_fdata (labels_img m))).

Definition labels_transform (m : NiftiLabelsMasker) (img : Nifti1Image) : list float64 :=
  map (fun c => mean (map (item (get_fdata img))
                          (np_where (fun l => np_equal l c) (get_fdata (labels_img m)))))
      (labels_of m).

Module MetaResult.
Record t : Type := mk
  { estimator : Estimator.t;
    maps : dict Nifti1Image }.

(** Modelled from the spec: a result exposes a mapping of named
    statistical volumes; asking for a name outside the mapping is an
    error.  [get_map_image] is [get_map(name, return_type="image")] and
    [get_map_array] is [get_map(name, return_type="array")], the flattened
    vector of the in-mask voxels of the map. *)
Definition get_map_image (r : t) (name : string) : Run Nifti1Image :=
  match get (maps r) name with
  | Some img => ret img
  | None => raise (ValueError ("No map with name '" +:+ name +:+ "' found."))
  end.

Definition get_map_array (r : t) (name : string) : Run (list float64) :=
  do img <- get_map_image r name;
  ret (masker_transform (Estimator.masker (estimator r)) img).
End MetaResult.

(** The collaborators whose code is outside this module. *)
Class Collaborators : Type :=
  { (** [nimare.utils.mm2vox] on one point: world space to voxel indices
        under an affine. *)
    mm2vox_point : xyz → Affine → ijk;
    (** [estimator.fit(dataset)] *)
    fit : Estimator.t → Dataset.t → MetaResult.t;
    (** [nimare.utils._get_clusters_table(img, threshold, two_sided=..,
        return_label_maps=True)]: the table of clusters and one labelled
        map per tail. *)
    _get_clusters_table : Nifti1Image → float64 → bool → DataFrame * list Nifti1Image }.

(** [mm2vox(xyz, affine)] on a table of points, row by row. *)
Definition mm2vox `{Collaborators} (pts : list xyz) (aff : Affine) : list ijk :=
  map (fun p => mm2vox_point p aff) pts.

(** [self.voxel_thresh or 0] *)
Definition or_zero (voxel_thresh : option float64) : float64 :=
  match voxel_thresh with
  | Some t => if truthy t then t else zero
  | None => zero
  end.

(** [sorted(list(np.unique(arr)[1:]))] *)
Definition cluster_ids_of (arr : ndarray float64) : list float64 :=
  sorted (tail (np_unique arr)).

Definition column_names (sign : Z) (cluster_ids : list float64) : list string :=
  let col_name := if sign =? 1 then "PosTail" else "NegTail" in
  map (fun c_id => col_name +:+ " " +:+ str_of_int (int_of_float c_id)) cluster_ids.

Definition not_present_message {V} (target : string) (maps : dict V) : string :=
  let available_maps := map (fun m => "'" +:+ m +:+ "'") (keys maps) in
  "Target image ('" +:+ target +:+ "') not present in result. "
  +:+ "Available maps in result are: " +:+ join ", " available_maps +:+ ".".

Definition no_dataset_message : string :=
  "MetaResult was not generated by an Estimator with a `dataset` attribute. "
  +:+ "This may be because the Estimator was a pairwise Estimator. "
  +:+ "The Jackknife method does not currently work with pairwise Estimators.".

(** ** Jackknife *)

Module Jackknife.
Section Jackknife.
Context `{ext : Collaborators}.

Record t : Type := mk
  { target_image : string;
    voxel_thresh : option float64;
    n_cores : Z }.

(** Voxelwise proportional reduction after the removal of one experiment:
    [1 - np.nan_to_num(np.true_divide(temp_stat_vals, stat_values))], the
    division being done with divide and invalid errors ignored. *)
Definition proportional_reduction (temp_stat_val stat_value : float64) : float64 :=
  let prop_value := np_true_divide temp_stat_val stat_value in
  let prop_value := nan_to_num prop_value in
  np_subtract one prop_value.

Definition _transform (self : t) (expid : string) (all_ids : list string)
    (dset : Dataset.t) (estimator : Estimator.t) (target_value_map : string)
    (stat_values : list float64) (original_masker : NiftiMasker)
    (cluster_masker : NiftiLabelsMasker) : Run (string * list float64) :=
  let estimator := deepcopy estimator in
  (* Fit Estimator to all studies except the target study *)
  let other_ids := List.filter (fun id_ => negb (String.eqb id_ expid)) all_ids in
  let temp_dset := Dataset.slice dset other_ids in
  let temp_result := fit estimator temp_dset in
  (* Collect the target values from the N-1 meta-analysis *)
  do temp_stat_img <- MetaResult.get_map_image temp_result target_value_map;
  let temp_stat_vals := masker_transform original_masker temp_stat_img in
  let voxelwise_stat_prop_values :=
    zip_with proportional_reduction temp_stat_vals stat_values in
  (* Now get the cluster-wise mean of the proportion values; both branches
     of the source's try/except build the same volume *)
  let stat_prop_img := inverse_transform original_masker voxelwise_stat_prop_values in
  let stat_prop_values := labels_transform cluster_masker stat_prop_img in
  ret (expid, stat_prop_values).

(** CBMAs have "stat" maps, while most IBMAs have "est" maps; Fisher's
    and Stouffer's only have "z" maps. *)
Definition target_value_map_of (maps : dict Nifti1Image) : string :=
  if contains maps "est" then "est"
  else if contains maps "stat" then "stat"
  else "z".

Definition tail_table (self : t) (rows_ meta_ids : list string) (dset : Dataset.t)
    (estimator : Estimator.t) (target_value_map : string)
    (stat_values : list float64) (original_masker : NiftiMasker)
    (sign : Z) (label_map : Nifti1Image) : Run DataFrame :=
  let cluster_ids := cluster_ids_of (get_fdata label_map) in
  (* Create contribution table *)
  let cols := column_names sign cluster_ids in
  let contribution_table := new_frame rows_ cols in
  let cluster_masker := mk_labels_masker label_map in
  do jackknife_results <-
    Parallel (fun study_id =>
                _transform self study_id meta_ids dset estimator target_value_map
                           stat_values original_masker cluster_masker)
             meta_ids;
  (* Add the results to the table *)
  do contribution_table <-
    fold_run (fun tbl '(expid, stat_prop_values) =>
                loc_set tbl expid (map Num stat_prop_values))
             contribution_table jackknife_results;
  ret (reset_index contribution_table).

Definition transform (self : t) (result : MetaResult.t)
  : Run (DataFrame * DataFrame * list Nifti1Image) :=
  match Estimator.dataset (MetaResult.estimator result) with
  | None => raise (AttributeError no_dataset_message)
  | Some dset =>
      let estimator := deepcopy (MetaResult.estimator result) in
      let original_masker := Estimator.masker estimator in
      (* Collect the thresholded cluster map *)
      do target_img <-
        (if contains (MetaResult.maps result) (target_image self)
         then MetaResult.get_map_image result (target_image self)
         else raise (ValueError (not_present_message (target_image self)
                                                     (MetaResult.maps result))));
      let target_value_map := target_value_map_of (MetaResult.maps result) in
      do stat_values <- MetaResult.get_map_array result target_value_map;
      let meta_ids := Estimator.inputs_id estimator in
      let rows_ := meta_ids in
      (* Get clusters table *)
      let two_sided := any_negative (get_fdata target_img) in
      let stat_threshold := or_zero (voxel_thresh self) in
      let '(clusters_table, label_maps) :=
        _get_clusters_table target_img stat_threshold two_sided in
      if Nat.eqb (length (rows clusters_table)) 0 then
        emit (Warning "No clusters found");;
        let contribution_table :=
          {| columns := ["id"]; rows := map (fun r => [Str r]) rows_ |} in
        ret (contribution_table, clusters_table, label_maps)
      else
        let signs := if Nat.eqb (length label_maps) 2 then [1; -1] else [1] in
        do contribution_tables <-
          for_each (fun '(sign, label_map) =>
                      tail_table self rows_ meta_ids dset estimator target_value_map
                                 stat_values original_masker sign label_map)
                   (zip signs label_maps);
        do contribution_table <- concat contribution_tables;
        ret (contribution_table, clusters_table, label_maps)
  end.
End Jackknife.
End Jackknife.

(** ** FocusCounter *)

Module FocusCounter.
Section FocusCounter.
Context `{ext : Collaborators}.

Record t : Type := mk
  { target_image : string;
    voxel_thresh : option float64;
    n_cores : Z }.

(** The square of the Euclidean distance between two voxel indices.  Both
    are integer triples, so the square is an exact integer (and exact in
    float64 as long as it stays below 2^53), and a distance [d] satisfies
    [d < 1] exactly when its square does. *)
Definition sqdist (u v : ijk) : Z :=
  let '(a, b, c) := u in
  let '(a', b', c') := v in
  (a - a') * (a - a') + (b - b') * (b - b') + (c - c') * (c - c').

(** The Euclidean distance itself, as a real number. *)
Definition euclidean (u v : ijk) : R := sqrt (IZR (sqdist u v)).

(** [cdist(XA, XB)]: one row per point of [XA], one column per point of
    [XB], each distance given by its square. *)
Definition cdist (XA XB : list ijk) : list (list Z) :=
  map (fun u => map (fun v => sqdist u v) XB) XA.

(** [np.any(m, axis=0)] for a matrix with [ncols] columns. *)
Definition any_axis0 (ncols : nat) (m : list (list bool)) : list bool :=
  map (fun j => existsb (fun row => nth j row false) m) (seq 0 ncols).

(** [np.sum] of a boolean vector. *)
Definition np_sum (bs : list bool) : Z :=
  foldr (fun (b : bool) acc => (if b then 1 else 0) + acc) 0 bs.

Definition focus_count (cluster_idx ijk_ : list ijk) : Z :=
  let distances := cdist cluster_idx ijk_ in
  let distances := map (map (fun d => d <? 1)) distances in
  let distances := any_axis0 (length ijk_) distances in
  np_sum distances.

Definition _transform (self : t) (expid : string) (coordinates_df : list CoordRow)
    (labeled_cluster_map : ndarray float64) (affine_ : Affine) : string * list Z :=
  let coords := List.filter (fun r => String.eqb (coord_id r) expid) coordinates_df in
  let ijk_ := mm2vox (map coord_xyz coords) affine_ in
  let clust_ids := cluster_ids_of labeled_cluster_map in
  let focus_counts :=
    map (fun c_val =>
           let cluster_idx := np_where (fun l => np_equal l c_val) labeled_cluster_map in
           focus_count cluster_idx ijk_)
        clust_ids in
  (expid, focus_counts).

Definition tail_table (self : t) (rows_ meta_ids : list string)
    (estimator : Estimator.t) (target_img : Nifti1Image)
    (sign : Z) (label_map : Nifti1Image) : Run DataFrame :=
  let label_arr := get_fdata label_map in
  let cluster_ids := cluster_ids_of label_arr in
  (* Create contribution table *)
  let cols := column_names sign cluster_ids in
  let contribution_table := new_frame rows_ cols in
  do jackknife_results <-
    Parallel (fun study_id =>
                ret (_transform self study_id (Estimator.inputs_coordinates estimator)
                                label_arr (affine target_img)))
             meta_ids;
  (* Add the results to the table *)
  do contribution_table <-
    fold_run (fun tbl '(expid, focus_counts) =>
                loc_set tbl expid (map Int focus_counts))
             contribution_table jackknife_results;
  ret (reset_index contribution_table).

(** The source also calls nilearn's [reporting.get_clusters_table] once
    and overwrites what it returns; that call leaves nothing behind. *)
Definition transform (self : t) (result : MetaResult.t)
  : Run (DataFrame * DataFrame * list Nifti1Image) :=
  match Estimator.dataset (MetaResult.estimator result) with
  | None => raise (AttributeError no_dataset_message)
  | Some _ =>
      let estimator := deepcopy (MetaResult.estimator result) in
      (* Collect the thresholded cluster map *)
      do target_img <-
        (if contains (MetaResult.maps result) (target_image self)
         then MetaResult.get_map_image result (target_image self)
         else raise (ValueError (not_present_message (target_image self)
                                                     (MetaResult.maps result))));
      let meta_ids := Estimator.inputs_id estimator in
      let rows_ := meta_ids in
      (* Get clusters table *)
      let two_sided := any_negative (get_fdata target_img) in
      let stat_threshold := or_zero (voxel_thresh self) in
      let '(clusters_table, label_maps) :=
        _get_clusters_table target_img stat_threshold two_sided in
      if Nat.eqb (length (rows clusters_table)) 0 then
        emit (Warning "No clusters found");;
        let contribution_table :=
          {| columns := ["id"]; rows := map (fun r => [Str r]) rows_ |} in
        ret (contribution_table, clusters_table, label_maps)
      else
        let signs := if Nat.eqb (length label_maps) 2 then [1; -1] else [1] in
        do contribution_tables <-
          for_each (fun '(sign, label_map) =>
                      tail_table self rows_ meta_ids estimator target_img sign label_map)
                   (zip signs label_maps);
        do contribution_table <- concat contribution_tables;
        ret (contribution_table, clusters_table, label_maps)
  end.
End FocusCounter.
End FocusCounter.

(** ** FocusFilter *)

(** A reference to a Dataset object, and the store of those objects. *)
Definition ref : Type := positive.
Abbreviation store := (gmap ref Dataset.t).

Module FocusFilter.
Section FocusFilter.
Context `{ext : Collaborators}.

Record t : Type := mk
  { masker : option NiftiMasker }.

(** [self.masker or dataset.masker] *)
Definition masker_for (self : t) (dataset : Dataset.t) : NiftiMasker :=
  match masker self with
  | Some m => m
  | None => Dataset.masker dataset
  end.

(** [enumerate(l)] *)
Definition enumerate {A} (l : list A) : list (nat * A) :=
  zip (seq 0 (length l)) l.

(** [len(np.where((mask_ijk == coord).all(axis=1))[0])] as a condition:
    the number of rows of [mask_ijk] equal to [coord] is not 0. *)
Definition in_mask (mask_ijk : list ijk) (coord : ijk) : bool :=
  negb (Nat.eqb (length (List.filter (fun m => ijk_eqb m coord) mask_ijk)) 0).

(** The positions of the coordinates that fall in the mask. *)
Definition keep_idx (mask_ijk dset_ijk : list ijk) : list nat :=
  map fst (List.filter (fun ic => in_mask mask_ijk (snd ic)) (enumerate dset_ijk)).

(** [df.iloc[idx]]: the rows at the given positions, in that order. *)
Definition iloc {A} (df : list A) (idx : list nat) : list A :=
  omap (fun i => df !! i) idx.

(** Whether a coordinate row falls in the mask that [transform] uses. *)
Definition row_in_mask (self : t) (dataset : Dataset.t) (r : CoordRow) : bool :=
  let masker_ := masker_for self dataset in
  in_mask (np_where truthy (get_fdata (mask_img masker_)))
          (mm2vox_point (coord_xyz r) (affine (mask_img masker_))).

(** The coordinate table that [transform] assigns. *)
Definition filtered (self : t) (dataset : Dataset.t) : list ijk * list nat * list CoordRow :=
  let masker_ := masker_for self dataset in
  (* Get matrix indices for in-brain voxels in the mask *)
  let mask_ijk := np_where truthy (get_fdata (mask_img masker_)) in
  (* Get matrix indices for Dataset coordinates *)
  let dset_xyz := map coord_xyz (Dataset.coordinates dataset) in
  let dset_ijk := mm2vox dset_xyz (affine (mask_img masker_)) in
  let kept := keep_idx mask_ijk dset_ijk in
  (dset_ijk, kept, iloc (Dataset.coordinates dataset) kept).

Definition removed_message (n_all n_kept : nat) : string :=
  str_of_int (Z.of_nat n_all - Z.of_nat n_kept) +:+ "/" +:+ str_of_int (Z.of_nat n_all)
  +:+ " coordinates fall outside of " +:+ "the mask. Removing them.".

(** On values: the Dataset that the object becomes, and the log line. *)
Definition apply (self : t) (dataset : Dataset.t) : list event * Dataset.t :=
  let '(dset_ijk, kept, coords) := filtered self dataset in
  ([Info (removed_message (length dset_ijk) (length kept))],
   Dataset.set_coordinates dataset coords).

(** [transform(dataset)]: the argument is a reference; the object it
    points to is updated in the store and the same reference comes back.
    A reference to no object does not occur. *)
Definition transform (self : t) (dataset : ref) (σ : store)
  : option (list event * ref * store) :=
  match σ !! dataset with
  | Some obj =>
      let '(evs, obj') := apply self obj in
      Some (evs, dataset, <[dataset := obj']> σ)
  | None => None
  end.
End FocusFilter.
End FocusFilter.


(** ** What the specification says, where it is compared with the code *)

(** Following the spec's words for FocusCounter: the number of the study's
    peak voxel coordinates that are within a Euclidean voxel distance of 1
    of (coincide with or face-touch) any voxel of the cluster; the distance
    is at most 1 exactly when its square is. *)
Definition spec_focus_count (cluster_idx peaks : list ijk) : Z :=
  Z.of_nat (length (List.filter
                      (fun p => existsb (fun u => FocusCounter.sqdist u p <=? 1) cluster_idx)
                      peaks)).

(** A message mentions a text when the text occurs in it. *)
Definition mentions (msg part : string) : Prop :=
  ∃ pre post : string, msg = pre +:+ part +:+ post.

(** ** Concrete inputs *)

Module Examples.
(** A grid of three voxels along the first axis, under the identity affine. *)
Definition identity_affine : Affine :=
  [[one; zero; zero; zero]; [zero; one; zero; zero];
   [zero; zero; one; zero]; [zero; zero; zero; one]].

Definition row3 (a b c : float64) : ndarray float64 :=
  {| shape := (3, 1, 1)%nat;
     item := fun v => if ijk_eqb v (0, 0, 0) then a
                      else if ijk_eqb v (1, 0, 0) then b
                      else if ijk_eqb v (2, 0, 0) then c
                      else zero |}.

Definition volume (a b c : float64) : Nifti1Image :=
  {| get_fdata := row3 a b c; affine := identity_affine |}.

Definition whole_mask : NiftiMasker := mk_masker (volume one one one).
Definition first_voxel_mask : NiftiMasker := mk_masker (volume one zero zero).

(** A focus at [x] millimetres on the first axis. *)
Definition focus (study : string) (x : Z) : CoordRow :=
  {| coord_id := study; coord_x := float_of_int x; coord_y := zero; coord_z := zero |}.

(** A coordinate mapper for the identity affine, dropping the fraction. *)
Definition trunc_mm2vox (p : xyz) (_ : Affine) : ijk :=
  let '(x, y, z) := p in (int_of_float x, int_of_float y, int_of_float z).

(** An estimator whose statistic at a voxel is the number of foci of the
    dataset in that voxel. *)
Definition count_map (d : Dataset.t) : ndarray float64 :=
  {| shape := (3, 1, 1)%nat;
     item := fun v =>
       float_of_int (Z.of_nat (length (List.filter
         (fun r => ijk_eqb (trunc_mm2vox (coord_xyz r) identity_affine) v)
         (Dataset.coordinates d)))) |}.

Definition count_fit (est : Estimator.t) (d : Dataset.t) : MetaResult.t :=
  {| MetaResult.estimator :=
       {| Estimator.dataset := Some d;
          Estimator.inputs_id := Dataset.ids d;
          Estimator.inputs_coordinates := Dataset.coordinates d;
          Estimator.masker := Estimator.masker est |};
     MetaResult.maps := [("stat", mk_image (count_map d) identity_affine)] |}.

(** A cluster extractor that puts every voxel above the threshold in one
    cluster, labelled 1. *)
Definition threshold_clusters (img : Nifti1Image) (thr : float64) (two_sided : bool)
  : DataFrame * list Nifti1Image :=
  let above := fun x => np_less thr x in
  let found := np_where above (get_fdata img) in
  let cols := ["Cluster ID"; "Cluster Size (mm3)"] in
  let label_map :=
    {| get_fdata := {| shape := shape (get_fdata img);
                       item := fun v => if above (item (get_fdata img) v)
                                        then one else zero |};
       affine := affine img |} in
  (match found with
   | [] => {| columns := cols; rows := [] |}
   | _ => {| columns := cols; rows := [[Int 1; Int (Z.of_nat (length found))]] |}
   end,
   [label_map]).

Definition toy : Collaborators :=
  {| mm2vox_point := trunc_mm2vox;
     fit := count_fit;
     _get_clusters_table := threshold_clusters |}.

(** Three studies: A reports a focus in voxel 2, B and C one each in
    voxel 0; nobody reports one in voxel 1. *)
Definition foci_ABC : list CoordRow := [focus "A" 2; focus "B" 0; focus "C" 0].

Definition dset_ABC : Dataset.t :=
  {| Dataset.ids := ["A"; "B"; "C"];
     Dataset.coordinates := foci_ABC;
     Dataset.images := [];
     Dataset.metadata := [("A", "2019"); ("B", "2020"); ("C", "2021")];
     Dataset.masker := whole_mask |}.

Definition est_ABC : Estimator.t :=
  {| Estimator.dataset := Some dset_ABC;
     Estimator.inputs_id := ["A"; "B"; "C"];
     Estimator.inputs_coordinates := foci_ABC;
     Estimator.masker := whole_mask |}.

(** A pairwise Estimator: it has no [dataset] attribute. *)
Definition est_pairwise : Estimator.t :=
  {| Estimator.dataset := None;
     Estimator.inputs_id := ["A"; "B"; "C"];
     Estimator.inputs_coordinates := foci_ABC;
     Estimator.masker := whole_mask |}.

Definition default_target : string :=
  "z_desc-size_level-cluster_corr-FWE_method-montecarlo".

Definition jackknife : Jackknife.t :=
  {| Jackknife.target_image := default_target;
     Jackknife.voxel_thresh := None;
     Jackknife.n_cores := 1 |}.

Definition focus_counter : FocusCounter.t :=
  {| FocusCounter.target_image := default_target;
     FocusCounter.voxel_thresh := None;
     FocusCounter.n_cores := 1 |}.

Definition stat_ABC : Nifti1Image := mk_image (count_map dset_ABC) identity_affine.

(** A result without the target map, from either kind of Estimator. *)
Definition result_no_target : MetaResult.t :=
  {| MetaResult.estimator := est_ABC;
     MetaResult.maps := [("stat", stat_ABC); ("z", volume one zero one)] |}.

Definition result_pairwise : MetaResult.t :=
  {| MetaResult.estimator := est_pairwise;
     MetaResult.maps := [("stat", stat_ABC); ("z", volume one zero one)] |}.

(** A result whose target map is zero everywhere, from either kind. *)
Definition result_no_clusters : MetaResult.t :=
  {| MetaResult.estimator := est_ABC;
     MetaResult.maps := [("stat", stat_ABC); (default_target, volume zero zero zero)] |}.

Definition result_pairwise_no_clusters : MetaResult.t :=
  {| MetaResult.estimator := est_pairwise;
     MetaResult.maps := [("stat", stat_ABC); (default_target, volume zero zero zero)] |}.

(** Labelled maps: one cluster made of voxel 0, and one of voxels 0 and 1. *)
Definition cluster_0 : Nifti1Image := volume one zero zero.
Definition cluster_01 : Nifti1Image := volume one one zero.

(** A Dataset with one focus in the mask's voxel and one far outside. *)
Definition dset_in_out : Dataset.t :=
  {| Dataset.ids := ["A"; "B"];
     Dataset.coordinates := [focus "A" 0; focus "B" 5];
     Dataset.images := [("A", "a.nii.gz")];
     Dataset.metadata := [("A", "2019"); ("B", "2020")];
     Dataset.masker := first_voxel_mask |}.

Definition focus_filter : FocusFilter.t := {| FocusFilter.masker := None |}.

Definition store_1 : store := {[ 1%positive := dset_in_out ]}.

(** The same store once the filter has run on its Dataset. *)
Definition store_1_filtered : store :=
  {[ 1%positive := Dataset.set_coordinates dset_in_out [focus "A" 0] ]}.

(** A result whose z map is the target: voxels 0 and 2 form the cluster. *)
Definition jackknife_on_z : Jackknife.t :=
  {| Jackknife.target_image := "z";
     Jackknife.voxel_thresh := None;
     Jackknife.n_cores := 1 |}.

Definition focus_counter_on_z : FocusCounter.t :=
  {| FocusCounter.target_image := "z";
     FocusCounter.voxel_thresh := None;
     FocusCounter.n_cores := 1 |}.
End Examples.


(** ** Array bounds *)

(** Whether an index triple addresses an element of an array of the given
    shape: NumPy's [np.where] only ever returns such triples. *)
Definition in_bounds (sh : nat * nat * nat) (v : ijk) : bool :=
  let '(n1, n2, n3) := sh in
  let '(i, j, k) := v in
  (0 <=? i) && (i <? Z.of_nat n1) && (0 <=? j) && (j <? Z.of_nat n2)
  && (0 <=? k) && (k <? Z.of_nat n3).

(** ** The CBMA workflow *)

Module Workflow.
(** A Python class: its module and qualified name, as [type(obj)] prints
    them, and the names of the classes it derives from, itself included. *)
Record pyclass : Type := mk_class
  { qualname : string;
    mro : list string }.

(** The values that the arguments of the workflow can be. *)
#[warnings="-register-all"] Inductive pyobj : Type :=
  | PyNone
  | PyStr (s : string)
  | PyClass (c : pyclass)
  | PyInstance (c : pyclass)
  | PyTuple (items : list pyobj).

(** [isinstance(obj, cls)] for a class given by its name. *)
Definition isinstance (obj : pyobj) (cls : string) : bool :=
  match obj with
  | PyInstance c => existsb (String.eqb cls) (mro c)
  | _ => false
  end.


(** [f"{type(obj)}"], for classes without a metaclass of their own. *)
Definition type_repr (obj : pyobj) : string :=
  match obj with
  | PyNone => "<class 'NoneType'>"
  | PyStr _ => "<class 'str'>"
  | PyClass _ => "<class 'type'>"
  | PyInstance c => "<class '" +:+ qualname c +:+ "'>"
  | PyTuple _ => "<class 'tuple'>"
  end.



Definition Jackknife : pyclass :=
  {| qualname := "nimare.diagnostics.Jackknife";
     mro := ["Jackknife"; "NiMAREBase"] |}.



(** What the workflow calls and the sources do not hold. *)
Class Collaborators : Type :=
  { (** [nimare.utils._check_type(obj, cls)], the class [cls] being given by
        its name: [Dataset], [CBMAEstimator], [Corrector], or [Diagnostics],
        a name that the workflow imports from [nimare.diagnostics]. *)
    _check_type : pyobj → string → Run pyobj;
    (** What follows the first log record, from the fit to the saving of
        the outputs: calls of methods of the Estimator, of the Corrector and
        of the diagnostics, and of the file system. *)
    analysis : pyobj → pyobj → pyobj → pyobj → option string → Run pyobj }.

Section Workflow.
Context `{wf : Collaborators}.


End Workflow.
End Workflow.

(** ** More concrete inputs *)

Module WorkflowExamples.
Import Workflow.



(** A [_check_type] that makes an instance of a class and accepts an object
    when it is of the kind asked for. *)
Definition check_by_mro (obj : pyobj) (cls : string) : Run pyobj :=
  let obj := match obj with PyClass c => PyInstance c | _ => obj end in
  if isinstance obj cls then ret obj
  else raise (ValueError ("Argument " +:+ type_repr obj +:+ " must be a kind of " +:+ cls)).

Definition toy : Collaborators :=
  {| _check_type := check_by_mro;
     analysis := λ dataset _ _ _ _, ret dataset |}.

End WorkflowExamples.

(** * Properties *)

(** ** Facts about binary64 arithmetic *)

Lemma div_eucl_mul_l (a b : Z) : 0 < a → Z.div_eucl (a * b) a = (b, 0).
Proof.
  intros Ha.
  pose proof (Z.div_mul b a ltac:(lia)) as Hq.
  pose proof (Z.mod_mul b a ltac:(lia)) as Hr.
  rewrite (Z.mul_comm b a) in Hq, Hr.
  unfold Z.div, Z.modulo in Hq, Hr.
  destruct (Z.div_eucl (a * b) a) as [q r]. simpl in *. congruence.
Qed.

(** The quotient of a mantissa by itself is exactly 2^53 at exponent -53. *)
Lemma div_core_self (m : positive) (e : Z) :
  SFdiv_core_binary prec emax (Zpos m) e (Zpos m) e = (2 ^ 53, -53, loc_Exact).
Proof.
  unfold SFdiv_core_binary.
  rewrite !Z.sub_diag.
  change (Z.min (fexp prec emax 0) 0) with (-53).
  change (0 - -53) with 53.
  cbv beta iota zeta.
  rewrite Z.shiftl_mul_pow2 by lia.
  rewrite div_eucl_mul_l by lia.
  unfold new_location. destruct (Z.even (Z.pos m)); reflexivity.
Qed.

Lemma true_divide_self (s : bool) (m : positive) (e : Z) :
  np_true_divide (S754_finite s m e) (S754_finite s m e) = one.
Proof.
  unfold np_true_divide, SFdiv. rewrite div_core_self.
  destruct s; vm_compute; reflexivity.
Qed.

Lemma shr_1_m (mrs : shr_record) :
  0 ≤ shr_m mrs → shr_m (shr_1 mrs) = shr_m mrs / 2.
Proof.
  destruct mrs as [m r s]. cbn [shr_m]. intros Hm.
  destruct m as [|[p|p|]|p]; cbn [shr_m shr_1]; try lia; try reflexivity.
  - apply Z.div_unique with 1; lia.
  - apply Z.div_unique with 0; lia.
Qed.

Lemma shr_iter_m (p : positive) : ∀ mrs : shr_record,
  0 ≤ shr_m mrs → shr_m (SpecFloat.iter_pos shr_1 p mrs) = shr_m mrs / 2 ^ Zpos p.
Proof.
  induction p as [p IH|p IH|]; intros mrs Hm; simpl.
  - assert (H1 : 0 ≤ shr_m (shr_1 mrs)).
    { rewrite shr_1_m by done. apply Z.div_pos; lia. }
    assert (H2 : 0 ≤ shr_m (SpecFloat.iter_pos shr_1 p (shr_1 mrs))).
    { rewrite IH by done. apply Z.div_pos; lia. }
    rewrite IH, IH, shr_1_m by done.
    rewrite !Z.div_div by lia. f_equal.
    replace (Z.pos p~1) with (1 + Z.pos p + Z.pos p) by lia.
    rewrite !Z.pow_add_r by lia. lia.
  - assert (H2 : 0 ≤ shr_m (SpecFloat.iter_pos shr_1 p mrs)).
    { rewrite IH by done. apply Z.div_pos; lia. }
    rewrite IH, IH by done.
    rewrite !Z.div_div by lia. f_equal.
    replace (Z.pos p~0) with (Z.pos p + Z.pos p) by lia.
    rewrite Z.pow_add_r by lia. lia.
  - rewrite shr_1_m by done. reflexivity.
Qed.

Lemma digits2_pos_lower (m : positive) : 2 ^ (Zpos (digits2_pos m) - 1) ≤ Zpos m.
Proof.
  induction m as [m IH|m IH|]; simpl; [| |done].
  all: rewrite Pos2Z.inj_succ.
  all: replace (Z.succ (Z.pos (digits2_pos m)) - 1)
         with (1 + (Z.pos (digits2_pos m) - 1)) by lia.
  all: rewrite Z.pow_add_r by lia; lia.
Qed.

(** Rounding a positive mantissa to the format never loses all of it. *)
Lemma shr_fexp_pos (m : positive) (e : Z) (l : location) :
  emin prec emax ≤ e →
  0 < shr_m (fst (shr_fexp prec emax (Zpos m) e l)) ∧
  e ≤ snd (shr_fexp prec emax (Zpos m) e l).
Proof.
  intros He. unfold shr_fexp, shr.
  assert (Hr : shr_m (shr_record_of_loc (Z.pos m) l) = Zpos m)
    by (destruct l as [|[]]; reflexivity).
  destruct (fexp prec emax (Zdigits2 (Z.pos m) + e) - e) as [|n|n] eqn:Hn; simpl;
    rewrite ?Hr; try lia.
  rewrite shr_iter_m by (rewrite Hr; lia). rewrite Hr. split; [|lia].
  unfold fexp, emin, prec, emax in *. simpl Zdigits2 in Hn.
  pose proof (digits2_pos_lower m) as Hd.
  set (d := Z.pos (digits2_pos m)) in *.
  assert (Z.pos n = d - 53) as -> by lia.
  apply Z.div_str_pos. split; [lia|].
  etrans; [|exact Hd]. apply Z.pow_le_mono_r; lia.
Qed.

Lemma round_nearest_even_pos (m : Z) (l : location) :
  0 < m → 0 < round_nearest_even m l.
Proof. destruct l as [|[]]; simpl; try lia. destruct (Z.even m); lia. Qed.

Lemma binary_round_aux_pos (s : bool) (m : positive) (e : Z) (l : location) :
  emin prec emax ≤ e →
  (∃ m' e', binary_round_aux prec emax s (Zpos m) e l = S754_finite s m' e') ∨
  binary_round_aux prec emax s (Zpos m) e l = S754_infinity s.
Proof.
  intros He. unfold binary_round_aux.
  pose proof (shr_fexp_pos m e l He) as [H1 H2].
  destruct (shr_fexp prec emax (Z.pos m) e l) as [mrs1 e1]. simpl in H1, H2.
  pose proof (round_nearest_even_pos _ (loc_of_shr_record mrs1) H1) as H3.
  destruct (round_nearest_even (shr_m mrs1) (loc_of_shr_record mrs1)) as [|m2|m2];
    try lia.
  pose proof (shr_fexp_pos m2 e1 loc_Exact ltac:(lia)) as [H4 H5].
  destruct (shr_fexp prec emax (Z.pos m2) e1 loc_Exact) as [mrs3 e3].
  simpl in H4, H5.
  destruct (shr_m mrs3) as [|m3|m3]; try lia.
  destruct (e3 <=? emax - prec); eauto.
Qed.

(** A positive count converts to a positive float, finite or not. *)
Lemma float_of_int_pos (p : positive) :
  (∃ m e, float_of_int (Zpos p) = S754_finite false m e) ∨
  float_of_int (Zpos p) = S754_infinity false.
Proof.
  unfold float_of_int, binary_normalize, binary_round.
  destruct (shl_align p 0 _) as [mz ez] eqn:Hs.
  apply binary_round_aux_pos.
  unfold shl_align in Hs.
  destruct (fexp prec emax (Z.pos (digits2_pos p) + 0) - 0) eqn:Hf;
    inversion Hs; subst; unfold fexp, emin, prec, emax in *; lia.
Qed.

Lemma sum_of_zeros (vals : list float64) :
  Forall (λ v, v = zero) vals → foldl np_add zero vals = zero.
Proof.
  induction 1 as [|v vals -> _ IH]; [done|]. simpl. exact IH.
Qed.

(** The mean of a non-empty run of zeros is zero. *)
Lemma mean_of_zeros (vals : list float64) :
  vals ≠ [] → Forall (λ v, v = zero) vals → mean vals = zero.
Proof.
  intros Hne Hz. unfold mean. rewrite sum_of_zeros by done.
  destruct vals as [|v vals]; [done|].
  cbn [length]. rewrite Nat2Z.inj_succ.
  destruct (Z.succ (Z.of_nat (length vals))) as [|p|p] eqn:Hp; try lia.
  destruct (float_of_int_pos p) as [(m & e & ->)| ->]; reflexivity.
Qed.

(** ** Lists and indices *)

Lemma lookup_map {A B} (f : A → B) (l : list A) (i : nat) :
  map f l !! i = f <$> l !! i.
Proof.
  revert i. induction l as [|a l IH]; intros [|i]; simpl; auto.
Qed.

Lemma ijk_eqb_eq (u v : ijk) : ijk_eqb u v = true ↔ u = v.
Proof.
  destruct u as [[a b] c], v as [[a' b'] c']. unfold ijk_eqb.
  rewrite !andb_true_iff, !Z.eqb_eq. split.
  - intros [[-> ->] ->]. reflexivity.
  - intros [= -> -> ->]. auto.
Qed.

Lemma index_of_lookup (v : ijk) (l : list ijk) (i : nat) :
  index_of v l = Some i → l !! i = Some v.
Proof.
  revert i. induction l as [|u l IH]; intros i; simpl; [discriminate|].
  destruct (ijk_eqb u v) eqn:Huv.
  - intros [= <-]. apply ijk_eqb_eq in Huv. by subst.
  - destruct (index_of v l) as [j|]; simpl; [|discriminate].
    intros [= <-]. simpl. by apply IH.
Qed.

Lemma index_of_elem (v : ijk) (l : list ijk) :
  v ∈ l → ∃ i, index_of v l = Some i.
Proof.
  induction 1 as [v l|v u l _ IH]; simpl.
  - rewrite (proj2 (ijk_eqb_eq v v) eq_refl). eauto.
  - destruct (ijk_eqb u v); [eauto|]. destruct IH as [i ->]. simpl. eauto.
Qed.

(** ** Jackknife: the voxelwise reduction *)

Lemma proportional_reduction_unchanged (x : float64) :
  finite_nonzero x = true → Jackknife.proportional_reduction x x = zero.
Proof.
  destruct x as [| | |s m e]; try discriminate. intros _.
  unfold Jackknife.proportional_reduction.
  rewrite true_divide_self. vm_compute. reflexivity.
Qed.

Lemma proportional_reduction_zero_baseline (t : float64) (sgn : bool) :
  Jackknife.proportional_reduction t (S754_zero sgn) =
    match t with
    | S754_zero _ | S754_nan => one
    | S754_infinity st | S754_finite st _ _ =>
        if xorb st sgn then float_max else SFopp float_max
    end.
Proof.
  destruct t as [st|st| |st m e], sgn; try destruct st; vm_compute; reflexivity.
Qed.

(** The volume that [_transform] hands to the cluster masker holds, at each
    voxel of the mask, the reduction computed from the two maps there. *)
Lemma reduction_volume_at_mask_voxel
    (m : NiftiMasker) (temp_img stat_img : Nifti1Image) (v : ijk) :
  v ∈ np_where truthy (get_fdata (mask_img m)) →
  item (get_fdata (inverse_transform m
          (zip_with Jackknife.proportional_reduction
                    (masker_transform m temp_img) (masker_transform m stat_img)))) v
  = Jackknife.proportional_reduction (item (get_fdata temp_img) v)
                                     (item (get_fdata stat_img) v).
Proof.
  intros Hv. unfold inverse_transform, masker_transform. cbn [get_fdata item].
  destruct (index_of_elem _ _ Hv) as [i Hi]. rewrite Hi.
  apply index_of_lookup in Hi.
  by rewrite nth_lookup, lookup_zip_with, !lookup_map, Hi.
Qed.

(** C1, as amended: for every voxel of the mask the contribution value is
    [1 - nan_to_num(reduced_value / original_value)], computed without any
    error.  Where the original statistic value is zero (of either sign), it
    is the ratio, not the reduction, that is normalised: a NaN ratio (zero
    or NaN over zero) becomes 0 and the reduction is 1; an infinite ratio
    becomes the largest finite float of its sign and the reduction is that
    float with the opposite sign.  The reduction is never 0 there. *)
Theorem C1_reduction_is_one_minus_normalised_ratio :
  (∀ (m : NiftiMasker) (temp_img stat_img : Nifti1Image) (v : ijk),
     v ∈ np_where truthy (get_fdata (mask_img m)) →
     item (get_fdata (inverse_transform m
             (zip_with Jackknife.proportional_reduction
                       (masker_transform m temp_img) (masker_transform m stat_img)))) v
     = np_subtract one
         (nan_to_num (np_true_divide (item (get_fdata temp_img) v)
                                     (item (get_fdata stat_img) v))))
  ∧ (∀ (t : float64) (sgn : bool),
       Jackknife.proportional_reduction t (S754_zero sgn) =
         match t with
         | S754_zero _ | S754_nan => one
         | S754_infinity st | S754_finite st _ _ =>
             if xorb st sgn then float_max else SFopp float_max
         end)
  ∧ (∀ (t : float64) (sgn : bool),
       Jackknife.proportional_reduction t (S754_zero sgn) ≠ zero).
Proof.
  split; [exact reduction_volume_at_mask_voxel|].
  split; [exact proportional_reduction_zero_baseline|].
  intros t sgn. rewrite proportional_reduction_zero_baseline.
  destruct t as [st|st| |st m e]; try destruct (xorb st sgn); discriminate.
Qed.

(** At voxel 1 of the example, where the statistic is 0 with and without
    study A, the volume of reductions holds 1. *)
Lemma C1_reduction_witness :
  item (get_fdata (inverse_transform Examples.whole_mask
          (zip_with Jackknife.proportional_reduction
             (masker_transform Examples.whole_mask
                (mk_image (Examples.count_map
                             (Dataset.slice Examples.dset_ABC ["B"; "C"]))
                          Examples.identity_affine))
             (masker_transform Examples.whole_mask Examples.stat_ABC)))) (1, 0, 0)
  = one.
Proof.
  rewrite (proj1 C1_reduction_is_one_minus_normalised_ratio Examples.whole_mask).
  - vm_compute. reflexivity.
  - vm_compute. apply list_elem_of_further, list_elem_of_here.
Defined.

(** C1, as stated, fails when the reduced and the original value are both
    zero: the reduction is 1, not 0. *)
Lemma C1_zero_baseline_counterexample :
  Jackknife.proportional_reduction zero zero = one
  ∧ Jackknife.proportional_reduction zero zero ≠ zero.
Proof. split; [vm_compute; reflexivity | vm_compute; discriminate]. Qed.

(** ** Jackknife: a cluster left unchanged by the re-fit *)

Section JackknifeProperties.
Context `{ext : Collaborators}.

(** At a voxel where the re-fit map equals the original map and the value is
    finite and not zero, the volume of reductions holds 0: either the voxel
    is in the mask and the ratio is 1, or it is outside and the volume is
    filled with 0. *)
Lemma reduction_volume_at_unchanged_voxel
    (m : NiftiMasker) (temp_img stat_img : Nifti1Image) (v : ijk) :
  item (get_fdata temp_img) v = item (get_fdata stat_img) v →
  finite_nonzero (item (get_fdata stat_img) v) = true →
  item (get_fdata (inverse_transform m
          (zip_with Jackknife.proportional_reduction
                    (masker_transform m temp_img) (masker_transform m stat_img)))) v
  = zero.
Proof.
  intros Heq Hfin.
  destruct (decide (v ∈ np_where truthy (get_fdata (mask_img m)))) as [Hin|Hout].
  - rewrite reduction_volume_at_mask_voxel by done.
    rewrite Heq. by apply proportional_reduction_unchanged.
  - unfold inverse_transform. cbn [get_fdata item].
    destruct (index_of v _) as [i|] eqn:Hi; [|reflexivity].
    apply index_of_lookup in Hi. exfalso. apply Hout.
    by eapply list_elem_of_lookup_2.
Qed.

(** C6, as amended: for every study whose leave-one-out re-fit produces
    value-map values identical to the original value map over a cluster's
    voxels, where those original values are finite and not zero, the
    Jackknife contribution value for that study and that cluster is 0.  (A
    cluster is a label of the labelled map together with its voxels, of
    which there is at least one.) *)
Theorem C6_unchanged_cluster_contributes_zero
    (self : Jackknife.t) (expid : string) (all_ids : list string)
    (dset : Dataset.t) (estimator : Estimator.t) (target_value_map : string)
    (stat_img temp_img : Nifti1Image) (original_masker : NiftiMasker)
    (label_map : Nifti1Image) (k : nat) (c : float64) :
  let other_ids := List.filter (λ id_, negb (String.eqb id_ expid)) all_ids in
  let cluster := np_where (λ l, np_equal l c) (get_fdata label_map) in
  get (MetaResult.maps (fit estimator (Dataset.slice dset other_ids))) target_value_map
    = Some temp_img →
  labels_of (mk_labels_masker label_map) !! k = Some c →
  cluster ≠ [] →
  (∀ v, v ∈ cluster →
        item (get_fdata temp_img) v = item (get_fdata stat_img) v
        ∧ finite_nonzero (item (get_fdata stat_img) v) = true) →
  ∃ vals,
    Jackknife._transform self expid all_ids dset estimator target_value_map
      (masker_transform original_masker stat_img) original_masker
      (mk_labels_masker label_map)
    = ret (expid, vals)
    ∧ vals !! k = Some zero.
Proof.
  intros other_ids cluster Hget Hk Hne Hsame.
  unfold Jackknife._transform, MetaResult.get_map_image, deepcopy.
  fold other_ids. rewrite Hget. cbn [bind ret app].
  eexists. split; [reflexivity|].
  unfold labels_transform. rewrite lookup_map, Hk. cbn [fmap option_fmap option_map].
  f_equal. cbn [labels_img]. fold cluster.
  apply mean_of_zeros.
  - destruct cluster; [done|discriminate].
  - apply Forall_forall. intros x Hx.
    apply list_elem_of_In, in_map_iff in Hx as (v & <- & Hv).
    destruct (Hsame v) as [Heq Hfin]; [by apply list_elem_of_In|].
    by apply reduction_volume_at_unchanged_voxel.
Qed.
End JackknifeProperties.

(** Study A reports nothing in voxels 0 and 1, so removing it leaves the
    statistic there as it was; only voxel 0 has a statistic that is not
    zero, and the cluster made of that voxel gets contribution 0. *)
Lemma C6_unchanged_cluster_witness :
  ∃ vals,
    Jackknife._transform (ext := Examples.toy) Examples.jackknife "A" ["A"; "B"; "C"]
      Examples.dset_ABC Examples.est_ABC "stat"
      (masker_transform Examples.whole_mask Examples.stat_ABC) Examples.whole_mask
      (mk_labels_masker Examples.cluster_0)
    = ret ("A", vals)
    ∧ vals !! 0%nat = Some zero.
Proof.
  apply (C6_unchanged_cluster_contributes_zero (ext := Examples.toy)
           Examples.jackknife "A" ["A"; "B"; "C"] Examples.dset_ABC Examples.est_ABC
           "stat" Examples.stat_ABC
           (mk_image (Examples.count_map
                        (Dataset.slice Examples.dset_ABC ["B"; "C"]))
                     Examples.identity_affine)
           Examples.whole_mask Examples.cluster_0 0 one).
  - reflexivity.
  - vm_compute. reflexivity.
  - vm_compute. discriminate.
  - intros v Hv. vm_compute in Hv.
    apply list_elem_of_singleton in Hv. subst v. split; vm_compute; reflexivity.
Defined.

(** C6, as stated, fails on a cluster with a voxel whose statistic is zero:
    removing study A changes nothing in voxels 0 and 1, yet its contribution
    to the cluster made of these two voxels is 0.5, because voxel 1, where
    the statistic is 0 before and after, counts as a reduction of 1. *)
Lemma C6_zero_valued_voxel_counterexample :
  let refit := Examples.count_map (Dataset.slice Examples.dset_ABC ["B"; "C"]) in
  let original := Examples.count_map Examples.dset_ABC in
  let cluster := np_where (λ l, np_equal l one) (get_fdata Examples.cluster_01) in
  Forall (λ v, item refit v = item original v) cluster
  ∧ Jackknife._transform (ext := Examples.toy) Examples.jackknife "A" ["A"; "B"; "C"]
      Examples.dset_ABC Examples.est_ABC "stat"
      (masker_transform Examples.whole_mask Examples.stat_ABC) Examples.whole_mask
      (mk_labels_masker Examples.cluster_01)
    = ret ("A", [S754_finite false 4503599627370496 (-53)])
  ∧ S754_finite false 4503599627370496 (-53) ≠ zero.
Proof.
  split; [|split].
  - vm_compute. repeat constructor.
  - vm_compute. reflexivity.
  - discriminate.
Qed.

(** ** The checks that both [transform] methods make first *)

Lemma append_assoc (a b c : string) : (a +:+ b) +:+ c = a +:+ b +:+ c.
Proof.
  induction a as [|ch a IH]; [done|].
  change (String ch ((a +:+ b) +:+ c) = String ch (a +:+ b +:+ c)). by rewrite IH.
Qed.

Lemma append_nil_r (a : string) : a +:+ "" = a.
Proof.
  induction a as [|ch a IH]; [done|].
  change (String ch (a +:+ "") = String ch a). by rewrite IH.
Qed.

Lemma mentions_append_r (pre msg part : string) :
  mentions msg part → mentions (pre +:+ msg) part.
Proof.
  intros (p & q & ->). exists (pre +:+ p), q. by rewrite append_assoc.
Qed.

Lemma mentions_append_l (msg post part : string) :
  mentions msg part → mentions (msg +:+ post) part.
Proof.
  intros (p & q & ->). exists p, (q +:+ post). by rewrite !append_assoc.
Qed.

Lemma join_mentions (sep : string) (parts : list string) (part : string) :
  part ∈ parts → mentions (join sep parts) part.
Proof.
  induction parts as [|p rest IH]; [by intros ?%elem_of_nil|].
  intros [->|Hin]%elem_of_cons.
  - destruct rest as [|r rest]; simpl.
    + exists "", "". by rewrite append_nil_r.
    + by exists "", (sep +:+ join sep (r :: rest)).
  - destruct rest as [|r rest]; [by apply elem_of_nil in Hin|].
    change (join sep (p :: r :: rest)) with (p +:+ sep +:+ join sep (r :: rest)).
    by apply mentions_append_r, mentions_append_r, IH.
Qed.

(** The message of the [ValueError] names every map of the result, quoted. *)
Lemma not_present_message_lists_maps {V} (target : string) (maps : dict V) (m : string) :
  m ∈ keys maps → mentions (not_present_message target maps) ("'" +:+ m +:+ "'").
Proof.
  intros Hm. unfold not_present_message.
  do 4 apply mentions_append_r. apply mentions_append_l, join_mentions.
  apply list_elem_of_In, in_map_iff. exists m. split; [done|].
  by apply list_elem_of_In.
Qed.

Lemma contains_false {V} (d : dict V) (k : string) :
  k ∉ keys d → contains d k = false.
Proof.
  intros Hk. unfold contains. apply not_true_is_false. intros Hex.
  apply existsb_exists in Hex as (k' & Hin & Heq).
  apply String.eqb_eq in Heq. subst k'. by apply Hk, list_elem_of_In.
Qed.

Lemma contains_get {V} (d : dict V) (k : string) (v : V) :
  get d k = Some v → contains d k = true.
Proof.
  unfold contains, keys. induction d as [|[k' v'] d IH]; simpl; [discriminate|].
  destruct (String.eqb k k'); [done|]. auto.
Qed.

Section TransformProperties.
Context `{ext : Collaborators}.

(** C3, as amended: for every result whose Estimator lacks a retained
    fitting Dataset (e.g. a pairwise Estimator), [Jackknife.transform] and
    [FocusCounter.transform] fail with an [AttributeError], raised before
    any per-study work begins: nothing is logged and no task is run. *)
Theorem C3_missing_dataset_raises_attribute_error
    (jk : Jackknife.t) (fc : FocusCounter.t) (result : MetaResult.t) :
  Estimator.dataset (MetaResult.estimator result) = None →
  (outcome (Jackknife.transform jk result) = inl (AttributeError no_dataset_message)
   ∧ trace (Jackknife.transform jk result) = [])
  ∧ (outcome (FocusCounter.transform fc result) = inl (AttributeError no_dataset_message)
     ∧ trace (FocusCounter.transform fc result) = []).
Proof.
  intros Hnone. unfold Jackknife.transform, FocusCounter.transform.
  rewrite Hnone. repeat split.
Qed.

(** C4, as amended: for every result whose Estimator retains its Dataset
    and whose map collection does not contain the configured target map
    name, [Jackknife.transform] and [FocusCounter.transform] raise a
    [ValueError] whose message names every map available in the result, and
    no per-study work is performed. *)
Theorem C4_missing_target_raises_value_error
    (jk : Jackknife.t) (fc : FocusCounter.t) (result : MetaResult.t) (dset : Dataset.t) :
  Estimator.dataset (MetaResult.estimator result) = Some dset →
  Jackknife.target_image jk ∉ keys (MetaResult.maps result) →
  FocusCounter.target_image fc ∉ keys (MetaResult.maps result) →
  (outcome (Jackknife.transform jk result)
     = inl (ValueError (not_present_message (Jackknife.target_image jk)
                                            (MetaResult.maps result)))
   ∧ trace (Jackknife.transform jk result) = [])
  ∧ (outcome (FocusCounter.transform fc result)
       = inl (ValueError (not_present_message (FocusCounter.target_image fc)
                                              (MetaResult.maps result)))
     ∧ trace (FocusCounter.transform fc result) = [])
  ∧ (∀ target m,
       m ∈ keys (MetaResult.maps result) →
       mentions (not_present_message target (MetaResult.maps result))
                ("'" +:+ m +:+ "'")).
Proof.
  intros Hsome Hjk Hfc. unfold Jackknife.transform, FocusCounter.transform.
  rewrite Hsome, (contains_false _ _ Hjk), (contains_false _ _ Hfc).
  repeat split. intros target m Hm. by apply not_present_message_lists_maps.
Qed.

(** C5, as amended: for every result whose Estimator retains its Dataset,
    whose value map (est, else stat, else z) can be read and whose target
    map yields zero clusters at the configured threshold,
    [Jackknife.transform] returns normally with a ContributionTable that has
    exactly one row per retained study id and the [id] column only, the
    ClustersTable with zero rows, and one warning as its whole trace. *)
Theorem C5_no_clusters_returns_empty_table
    (jk : Jackknife.t) (result : MetaResult.t) (dset : Dataset.t)
    (target_img : Nifti1Image) (stat_values : list float64)
    (clusters_table : DataFrame) (label_maps : list Nifti1Image) :
  Estimator.dataset (MetaResult.estimator result) = Some dset →
  get (MetaResult.maps result) (Jackknife.target_image jk) = Some target_img →
  MetaResult.get_map_array result (Jackknife.target_value_map_of (MetaResult.maps result))
    = ret stat_values →
  _get_clusters_table target_img (or_zero (Jackknife.voxel_thresh jk))
                      (any_negative (get_fdata target_img))
    = (clusters_table, label_maps) →
  rows clusters_table = [] →
  ∃ contribution_table,
    outcome (Jackknife.transform jk result)
      = inr (contribution_table, clusters_table, label_maps)
    ∧ columns contribution_table = ["id"]
    ∧ rows contribution_table
        = map (λ study_id, [Str study_id])
              (Estimator.inputs_id (MetaResult.estimator result))
    ∧ length (rows contribution_table)
        = length (Estimator.inputs_id (MetaResult.estimator result))
    ∧ trace (Jackknife.transform jk result) = [Warning "No clusters found"].
Proof.
  intros Hsome Htarget Hvalue Hclusters Hrows.
  unfold Jackknife.transform, MetaResult.get_map_image, deepcopy.
  rewrite Hsome, (contains_get _ _ _ Htarget), Htarget, Hvalue.
  cbn [bind ret app]. rewrite Hclusters, Hrows. cbn [length Nat.eqb].
  eexists. split; [reflexivity|]. cbn [columns rows].
  split; [reflexivity|]. split; [reflexivity|]. split; [apply length_map|reflexivity].
Qed.
End TransformProperties.

Lemma C3_missing_dataset_witness :
  (outcome (Jackknife.transform (ext := Examples.toy) Examples.jackknife
                                Examples.result_pairwise)
     = inl (AttributeError no_dataset_message)
   ∧ trace (Jackknife.transform (ext := Examples.toy) Examples.jackknife
                                Examples.result_pairwise) = [])
  ∧ (outcome (FocusCounter.transform (ext := Examples.toy) Examples.focus_counter
                                     Examples.result_pairwise)
       = inl (AttributeError no_dataset_message)
     ∧ trace (FocusCounter.transform (ext := Examples.toy) Examples.focus_counter
                                     Examples.result_pairwise) = []).
Proof.
  apply (C3_missing_dataset_raises_attribute_error (ext := Examples.toy)
           Examples.jackknife Examples.focus_counter Examples.result_pairwise).
  reflexivity.
Defined.

(** C3, as stated, fails on the class of the error: a result of a pairwise
    Estimator makes [transform] raise an [AttributeError]; the class named
    [ConfigurationError] is not what is raised. *)
Lemma C3_error_class_counterexample :
  ∃ e,
    outcome (Jackknife.transform (ext := Examples.toy) Examples.jackknife
                                 Examples.result_pairwise) = inl e
    ∧ outcome (FocusCounter.transform (ext := Examples.toy) Examples.focus_counter
                                      Examples.result_pairwise) = inl e
    ∧ class_name e = "AttributeError"
    ∧ class_name e ≠ "ConfigurationError".
Proof.
  exists (AttributeError no_dataset_message). repeat split. discriminate.
Qed.

(** Closes a goal [x ∉ l] for a literal [x] and a list of literals [l]. *)
Ltac absent :=
  let Hin := fresh "Hin" in
  intros Hin; vm_compute in Hin;
  repeat (apply elem_of_cons in Hin as [Hin|Hin]; [discriminate Hin|]);
  exact (proj1 (elem_of_nil _) Hin).

Lemma C4_missing_target_witness :
  (outcome (Jackknife.transform (ext := Examples.toy) Examples.jackknife
                                Examples.result_no_target)
     = inl (ValueError (not_present_message Examples.default_target
                          (MetaResult.maps Examples.result_no_target)))
   ∧ trace (Jackknife.transform (ext := Examples.toy) Examples.jackknife
                                Examples.result_no_target) = [])
  ∧ (outcome (FocusCounter.transform (ext := Examples.toy) Examples.focus_counter
                                     Examples.result_no_target)
       = inl (ValueError (not_present_message Examples.default_target
                            (MetaResult.maps Examples.result_no_target)))
     ∧ trace (FocusCounter.transform (ext := Examples.toy) Examples.focus_counter
                                     Examples.result_no_target) = [])
  ∧ (∀ target m,
       m ∈ keys (MetaResult.maps Examples.result_no_target) →
       mentions (not_present_message target (MetaResult.maps Examples.result_no_target))
                ("'" +:+ m +:+ "'")).
Proof.
  apply (C4_missing_target_raises_value_error (ext := Examples.toy)
           Examples.jackknife Examples.focus_counter Examples.result_no_target
           Examples.dset_ABC).
  - reflexivity.
  - absent.
  - absent.
Defined.

(** C4, as stated, fails on a result that has neither the target map nor a
    retained Dataset: the check of the Estimator comes first and the error
    is the [AttributeError], not a [ValueError]. *)
Lemma C4_check_order_counterexample :
  (Examples.default_target ∉ keys (MetaResult.maps Examples.result_pairwise))
  ∧ outcome (Jackknife.transform (ext := Examples.toy) Examples.jackknife
                                 Examples.result_pairwise)
      = inl (AttributeError no_dataset_message)
  ∧ outcome (FocusCounter.transform (ext := Examples.toy) Examples.focus_counter
                                    Examples.result_pairwise)
      = inl (AttributeError no_dataset_message)
  ∧ class_name (AttributeError no_dataset_message) ≠ "ValueError".
Proof.
  split; [|repeat split; discriminate].
  absent.
Qed.

Lemma C5_no_clusters_witness :
  ∃ contribution_table,
    outcome (Jackknife.transform (ext := Examples.toy) Examples.jackknife
                                 Examples.result_no_clusters)
      = inr (contribution_table,
             {| columns := ["Cluster ID"; "Cluster Size (mm3)"]; rows := [] |},
             snd (Examples.threshold_clusters
                    (Examples.volume zero zero zero) zero false))
    ∧ columns contribution_table = ["id"]
    ∧ rows contribution_table = [[Str "A"]; [Str "B"]; [Str "C"]]
    ∧ length (rows contribution_table) = 3%nat
    ∧ trace (Jackknife.transform (ext := Examples.toy) Examples.jackknife
                                 Examples.result_no_clusters)
        = [Warning "No clusters found"].
Proof.
  apply (C5_no_clusters_returns_empty_table (ext := Examples.toy)
           Examples.jackknife Examples.result_no_clusters Examples.dset_ABC
           (Examples.volume zero zero zero)
           (masker_transform Examples.whole_mask Examples.stat_ABC)).
  - reflexivity.
  - reflexivity.
  - reflexivity.
  - reflexivity.
  - reflexivity.
Defined.

(** C5, as stated, fails on a result of a pairwise Estimator whose target
    map yields no cluster: [transform] does not return, it raises the
    [AttributeError] of its first check, with no warning. *)
Lemma C5_pairwise_counterexample :
  (∃ target_img,
     get (MetaResult.maps Examples.result_pairwise_no_clusters)
         (Jackknife.target_image Examples.jackknife) = Some target_img
     ∧ rows (fst (_get_clusters_table (Collaborators := Examples.toy) target_img
                    (or_zero (Jackknife.voxel_thresh Examples.jackknife))
                    (any_negative (get_fdata target_img)))) = [])
  ∧ Jackknife.transform (ext := Examples.toy) Examples.jackknife
                        Examples.result_pairwise_no_clusters
    = ([], inl (AttributeError no_dataset_message)).
Proof.
  split; [|reflexivity].
  exists (Examples.volume zero zero zero). split; reflexivity.
Qed.

(** ** FocusCounter: what a count counts *)

Lemma sqdist_lt_1 (u v : ijk) : (FocusCounter.sqdist u v <? 1) = ijk_eqb u v.
Proof.
  apply eq_true_iff_eq. rewrite Z.ltb_lt, ijk_eqb_eq.
  destruct u as [[a b] c], v as [[a' b'] c']. unfold FocusCounter.sqdist. split.
  - intros Hlt.
    pose proof (Z.square_nonneg (a - a')) as Ha.
    pose proof (Z.square_nonneg (b - b')) as Hb.
    pose proof (Z.square_nonneg (c - c')) as Hc.
    assert ((a - a') * (a - a') = 0) as Ha0 by lia.
    assert ((b - b') * (b - b') = 0) as Hb0 by lia.
    assert ((c - c') * (c - c') = 0) as Hc0 by lia.
    apply Z.mul_eq_0 in Ha0, Hb0, Hc0.
    assert (a = a') as -> by lia. assert (b = b') as -> by lia.
    assert (c = c') as -> by lia. reflexivity.
  - intros [= -> -> ->]. lia.
Qed.

Lemma map_seq_lookup {A B} (g : A → B) (h : nat → B) (l : list A) :
  (∀ j a, l !! j = Some a → h j = g a) →
  map h (seq 0 (length l)) = map g l.
Proof.
  intros Hh. apply list_eq. intros i. rewrite !lookup_map.
  destruct (l !! i) as [a|] eqn:Hi.
  - rewrite lookup_seq_lt by (by eapply lookup_lt_Some). simpl.
    f_equal. by apply Hh.
  - rewrite lookup_seq_ge; [done|]. by apply lookup_ge_None.
Qed.

(** A column of the thresholded distance matrix has a true entry exactly
    when some voxel of the cluster is closer than 1 to that peak. *)
Lemma any_axis0_cdist (cluster_idx peaks : list ijk) :
  FocusCounter.any_axis0 (length peaks)
    (map (map (λ d, d <? 1)) (FocusCounter.cdist cluster_idx peaks))
  = map (λ p, existsb (λ u, FocusCounter.sqdist u p <? 1) cluster_idx) peaks.
Proof.
  unfold FocusCounter.any_axis0, FocusCounter.cdist.
  apply map_seq_lookup. intros j p Hj.
  induction cluster_idx as [|u cluster_idx IH]; [done|].
  cbn [map existsb]. rewrite IH. f_equal.
  by rewrite nth_lookup, !lookup_map, Hj.
Qed.

Lemma np_sum_count {A} (g : A → bool) (l : list A) :
  FocusCounter.np_sum (map g l) = Z.of_nat (length (List.filter g l)).
Proof.
  induction l as [|a l IH]; [done|].
  cbn [map List.filter]. unfold FocusCounter.np_sum in *. cbn [foldr].
  rewrite IH. destruct (g a); cbn [length]; lia.
Qed.

Lemma focus_count_spec (cluster_idx peaks : list ijk) :
  FocusCounter.focus_count cluster_idx peaks
  = Z.of_nat (length (List.filter
                        (λ p, existsb (λ u, FocusCounter.sqdist u p <? 1) cluster_idx)
                        peaks)).
Proof.
  unfold FocusCounter.focus_count. by rewrite any_axis0_cdist, np_sum_count.
Qed.

Lemma sqdist_nonneg (u v : ijk) : 0 ≤ FocusCounter.sqdist u v.
Proof.
  destruct u as [[a b] c], v as [[a' b'] c']. unfold FocusCounter.sqdist.
  pose proof (Z.square_nonneg (a - a')). pose proof (Z.square_nonneg (b - b')).
  pose proof (Z.square_nonneg (c - c')). lia.
Qed.

(** Comparing the distance with 1 is comparing its square with 1. *)
Lemma euclidean_lt_1 (u v : ijk) :
  (FocusCounter.euclidean u v < 1)%R ↔ (FocusCounter.sqdist u v <? 1) = true.
Proof.
  unfold FocusCounter.euclidean. rewrite Z.ltb_lt.
  pose proof (sqdist_nonneg u v) as Hn. split.
  - intros Hlt. destruct (Z_lt_le_dec (FocusCounter.sqdist u v) 1) as [|Hge]; [done|].
    exfalso. apply IZR_le in Hge.
    pose proof (sqrt_le_1_alt _ _ Hge) as Hs. rewrite sqrt_1 in Hs. lra.
  - intros Hlt. assert (FocusCounter.sqdist u v = 0) as -> by lia.
    rewrite sqrt_0. lra.
Qed.

Lemma euclidean_le_1 (u v : ijk) :
  (FocusCounter.euclidean u v <= 1)%R ↔ (FocusCounter.sqdist u v <=? 1) = true.
Proof.
  unfold FocusCounter.euclidean. rewrite Z.leb_le.
  pose proof (sqdist_nonneg u v) as Hn. split.
  - intros Hle. destruct (Z_le_gt_dec (FocusCounter.sqdist u v) 1) as [|Hgt]; [done|].
    exfalso. assert (2 ≤ FocusCounter.sqdist u v) as Hge by lia. apply IZR_le in Hge.
    pose proof (sqrt_le_1_alt _ _ Hge) as Hs.
    assert (1 < sqrt 2)%R. { rewrite <- sqrt_1 at 1. apply sqrt_lt_1_alt. lra. }
    lra.
  - intros Hle.
    assert (FocusCounter.sqdist u v = 0 ∨ FocusCounter.sqdist u v = 1) as [-> | ->]
      by lia.
    + rewrite sqrt_0. lra.
    + rewrite sqrt_1. lra.
Qed.

Section FocusCounterProperties.
Context `{ext : Collaborators}.

(** What [_transform] returns, with each count written as the size of a
    selection among the peaks of the study. *)
Lemma focus_counter_transform_counts
    (self : FocusCounter.t) (expid : string) (coordinates_df : list CoordRow)
    (labeled_cluster_map : ndarray float64) (affine_ : Affine) :
  FocusCounter._transform self expid coordinates_df labeled_cluster_map affine_
  = (expid,
     map (λ c_val,
            Z.of_nat (length (List.filter
              (λ p, existsb (λ u, FocusCounter.sqdist u p <? 1)
                            (np_where (λ l, np_equal l c_val) labeled_cluster_map))
              (mm2vox (map coord_xyz
                         (List.filter (λ r, String.eqb (coord_id r) expid)
                                      coordinates_df))
                      affine_))))
         (cluster_ids_of labeled_cluster_map)).
Proof.
  unfold FocusCounter._transform. f_equal. apply map_ext. intros c_val.
  apply focus_count_spec.
Qed.

(** C2, as amended: for every study and every cluster, FocusCounter's
    per-cluster count equals the number of that study's peak voxel
    coordinates whose Euclidean distance in voxel space to some voxel of the
    cluster is less than 1, i.e. the peaks that coincide with a voxel of the
    cluster; a peak at distance exactly 1 of the nearest voxel of the
    cluster, one that only face-touches it, is not counted. *)
Theorem C2_focus_count_counts_coincident_peaks
    (self : FocusCounter.t) (expid : string) (coordinates_df : list CoordRow)
    (labeled_cluster_map : ndarray float64) (affine_ : Affine) :
  let peaks :=
    mm2vox (map coord_xyz
                (List.filter (λ r, String.eqb (coord_id r) expid) coordinates_df))
           affine_ in
  let cluster_of := λ c_val, np_where (λ l, np_equal l c_val) labeled_cluster_map in
  let near := λ c_val p,
    existsb (λ u, FocusCounter.sqdist u p <? 1) (cluster_of c_val) in
  FocusCounter._transform self expid coordinates_df labeled_cluster_map affine_
  = (expid,
     map (λ c_val, Z.of_nat (length (List.filter (near c_val) peaks)))
         (cluster_ids_of labeled_cluster_map))
  ∧ (∀ c_val p,
       near c_val p = true
       ↔ ∃ u, u ∈ cluster_of c_val ∧ (FocusCounter.euclidean u p < 1)%R)
  ∧ (∀ c_val p, near c_val p = true ↔ p ∈ cluster_of c_val)
  ∧ (∀ c_val p,
       (∀ u, u ∈ cluster_of c_val → (1 <= FocusCounter.euclidean u p)%R) →
       near c_val p = false).
Proof.
  intros peaks cluster_of near.
  assert (Hnear : ∀ c_val p, near c_val p = true ↔ p ∈ cluster_of c_val).
  { intros c_val p. unfold near. rewrite existsb_exists. split.
    - intros (u & Hu & Hlt). rewrite sqdist_lt_1 in Hlt.
      apply ijk_eqb_eq in Hlt. subst u. by apply list_elem_of_In.
    - intros Hp. exists p. split; [by apply list_elem_of_In|].
      rewrite sqdist_lt_1. by apply ijk_eqb_eq. }
  assert (Hreal : ∀ c_val p,
            near c_val p = true
            ↔ ∃ u, u ∈ cluster_of c_val ∧ (FocusCounter.euclidean u p < 1)%R).
  { intros c_val p. unfold near. rewrite existsb_exists. split.
    - intros (u & Hu & Hlt). exists u. split; [by apply list_elem_of_In|].
      by apply euclidean_lt_1.
    - intros (u & Hu & Hlt). exists u. split; [by apply list_elem_of_In|].
      by apply euclidean_lt_1. }
  split; [|split; [exact Hreal|split; [exact Hnear|]]].
  - apply focus_counter_transform_counts.
  - intros c_val p Hfar. apply not_true_is_false. intros Htrue.
    apply Hreal in Htrue as (u & Hu & Hlt). specialize (Hfar u Hu). lra.
Qed.

(** C9: for every study and every cluster, FocusCounter's count is a
    non-negative integer, one per cluster, and for every study with zero
    peak coordinates the count is 0 for every cluster. *)
Theorem C9_focus_counts_nonnegative_and_zero_without_peaks
    (self : FocusCounter.t) (expid : string) (coordinates_df : list CoordRow)
    (labeled_cluster_map : ndarray float64) (affine_ : Affine) :
  let counts :=
    snd (FocusCounter._transform self expid coordinates_df labeled_cluster_map affine_) in
  length counts = length (cluster_ids_of labeled_cluster_map)
  ∧ Forall (λ n, 0 ≤ n) counts
  ∧ (List.filter (λ r, String.eqb (coord_id r) expid) coordinates_df = [] →
     Forall (λ n, n = 0) counts).
Proof.
  intros counts. subst counts. rewrite focus_counter_transform_counts.
  cbn [snd]. split; [by rewrite length_map|]. split.
  - apply Forall_forall. intros n Hn.
    apply list_elem_of_In, in_map_iff in Hn as (c & <- & _). lia.
  - intros ->. apply Forall_forall. intros n Hn.
    apply list_elem_of_In, in_map_iff in Hn as (c & <- & _). reflexivity.
Qed.
End FocusCounterProperties.

(** C2, as stated, fails on a peak that face-touches a cluster: the cluster
    is voxel (0,0,0), study A has one peak, in voxel (1,0,0), at distance 1;
    the code counts 0 where the statement counts 1. *)
Lemma C2_face_touching_counterexample :
  let coordinates_df := [Examples.focus "A" 1; Examples.focus "B" 0] in
  let cluster_idx := np_where (λ l, np_equal l one) (get_fdata Examples.cluster_0) in
  let peaks := mm2vox (H := Examples.toy) (map coord_xyz [Examples.focus "A" 1])
                      Examples.identity_affine in
  cluster_ids_of (get_fdata Examples.cluster_0) = [one]
  ∧ cluster_idx = [(0, 0, 0)]
  ∧ peaks = [(1, 0, 0)]
  ∧ FocusCounter._transform (ext := Examples.toy) Examples.focus_counter "A"
      coordinates_df (get_fdata Examples.cluster_0) Examples.identity_affine
    = ("A", [0])
  ∧ spec_focus_count cluster_idx peaks = 1.
Proof. vm_compute. repeat split. Qed.

(** Study B has its one peak in voxel (0,0,0), the voxel of the cluster. *)
Lemma C2_focus_count_witness :
  FocusCounter._transform (ext := Examples.toy) Examples.focus_counter "B"
    [Examples.focus "A" 1; Examples.focus "B" 0] (get_fdata Examples.cluster_0)
    Examples.identity_affine
  = ("B", [1]).
Proof.
  rewrite (proj1 (C2_focus_count_counts_coincident_peaks (ext := Examples.toy)
                    Examples.focus_counter "B"
                    [Examples.focus "A" 1; Examples.focus "B" 0]
                    (get_fdata Examples.cluster_0) Examples.identity_affine)).
  vm_compute. reflexivity.
Defined.

Lemma C9_focus_counts_witness :
  let counts :=
    snd (FocusCounter._transform (ext := Examples.toy) Examples.focus_counter "D"
           Examples.foci_ABC (get_fdata Examples.cluster_01) Examples.identity_affine) in
  length counts = length (cluster_ids_of (get_fdata Examples.cluster_01))
  ∧ Forall (λ n, 0 ≤ n) counts
  ∧ Forall (λ n, n = 0) counts.
Proof.
  pose proof (C9_focus_counts_nonnegative_and_zero_without_peaks (ext := Examples.toy)
                Examples.focus_counter "D" Examples.foci_ABC
                (get_fdata Examples.cluster_01) Examples.identity_affine) as (Hl & Hp & Hz).
  split; [exact Hl|]. split; [exact Hp|]. apply Hz. reflexivity.
Defined.

(** ** FocusFilter: the rows that are kept *)

Lemma iloc_keep_idx_from {A} (g : A → ijk) (mask_ijk : list ijk) (l : list A) :
  ∀ pre : list A,
    omap (λ i, (pre ++ l) !! i)
         (map fst (List.filter (λ ic, FocusFilter.in_mask mask_ijk (snd ic))
                               (zip (seq (length pre) (length (map g l))) (map g l))))
    = List.filter (λ a, FocusFilter.in_mask mask_ijk (g a)) l.
Proof.
  induction l as [|a l IH]; intros pre; [done|].
  cbn [map length seq zip zip_with List.filter snd].
  specialize (IH (pre ++ [a])).
  rewrite <- app_assoc, length_app in IH. cbn [length app] in IH.
  rewrite Nat.add_1_r in IH.
  destruct (FocusFilter.in_mask mask_ijk (g a)).
  - cbn [map fst omap list_omap].
    rewrite lookup_app_r, Nat.sub_diag by lia. cbn [lookup list_lookup].
    f_equal. exact IH.
  - exact IH.
Qed.

(** Selecting the kept positions is filtering the rows. *)
Lemma iloc_keep_idx {A} (g : A → ijk) (mask_ijk : list ijk) (l : list A) :
  FocusFilter.iloc l (FocusFilter.keep_idx mask_ijk (map g l))
  = List.filter (λ a, FocusFilter.in_mask mask_ijk (g a)) l.
Proof. exact (iloc_keep_idx_from g mask_ijk l []). Qed.

Lemma filter_filter_same {A} (f : A → bool) (l : list A) :
  List.filter f (List.filter f l) = List.filter f l.
Proof.
  induction l as [|a l IH]; [done|]. cbn [List.filter].
  destruct (f a) eqn:Hfa; [|exact IH]. cbn [List.filter]. by rewrite Hfa, IH.
Qed.

Section FocusFilterProperties.
Context `{ext : Collaborators}.

Lemma apply_dataset (self : FocusFilter.t) (d : Dataset.t) :
  snd (FocusFilter.apply self d)
  = Dataset.set_coordinates d
      (List.filter (FocusFilter.row_in_mask self d) (Dataset.coordinates d)).
Proof.
  unfold FocusFilter.apply, FocusFilter.filtered, mm2vox. cbn [snd].
  rewrite map_map. by rewrite iloc_keep_idx.
Qed.

Lemma apply_twice (self : FocusFilter.t) (d : Dataset.t) :
  snd (FocusFilter.apply self (snd (FocusFilter.apply self d)))
  = snd (FocusFilter.apply self d).
Proof.
  rewrite !apply_dataset. unfold Dataset.set_coordinates. cbn.
  f_equal. apply filter_filter_same.
Qed.

Lemma transform_inv (self : FocusFilter.t) (dataset r : ref) (σ σ' : store)
    (evs : list event) :
  FocusFilter.transform self dataset σ = Some (evs, r, σ') →
  ∃ d, σ !! dataset = Some d
       ∧ r = dataset
       ∧ evs = fst (FocusFilter.apply self d)
       ∧ σ' = <[dataset := snd (FocusFilter.apply self d)]> σ.
Proof.
  unfold FocusFilter.transform. destruct (σ !! dataset) as [d|]; [|discriminate].
  destruct (FocusFilter.apply self d) as [evs0 d'] eqn:Happ.
  intros [= <- <- <-]. exists d. by rewrite Happ.
Qed.

Lemma transform_run (self : FocusFilter.t) (dataset : ref) (σ : store) (d : Dataset.t) :
  σ !! dataset = Some d →
  FocusFilter.transform self dataset σ
  = Some (fst (FocusFilter.apply self d), dataset,
          <[dataset := snd (FocusFilter.apply self d)]> σ).
Proof.
  intros Hd. unfold FocusFilter.transform. rewrite Hd.
  by destruct (FocusFilter.apply self d).
Qed.

(** C7: [FocusFilter.transform] is idempotent: for every Dataset and fixed
    mask, applying the filter to what a first application returned leaves
    the coordinate rows, and the whole store, as the first application left
    them. *)
Theorem C7_focus_filter_idempotent
    (self : FocusFilter.t) (dataset r : ref) (σ σ' : store) (evs : list event) :
  FocusFilter.transform self dataset σ = Some (evs, r, σ') →
  ∃ evs' σ'',
    FocusFilter.transform self r σ' = Some (evs', r, σ'')
    ∧ Dataset.coordinates <$> σ'' !! r = Dataset.coordinates <$> σ' !! r
    ∧ σ'' = σ'.
Proof.
  intros (d & Hd & -> & -> & ->)%transform_inv.
  eexists _, _. split; [apply transform_run, lookup_insert_eq|].
  rewrite apply_twice, insert_insert_eq. done.
Qed.

(** C8: for every Dataset, [FocusFilter.transform] changes only the
    coordinate table: the studies, their image paths and their metadata are
    unchanged (and so is every other object of the store), and every study
    remains in the Dataset, whether or not any of its coordinate rows is
    left. *)
Theorem C8_focus_filter_changes_coordinates_only
    (self : FocusFilter.t) (dataset r : ref) (σ σ' : store) (d : Dataset.t)
    (evs : list event) :
  σ !! dataset = Some d →
  FocusFilter.transform self dataset σ = Some (evs, r, σ') →
  ∃ d',
    σ' !! r = Some d'
    ∧ Dataset.ids d' = Dataset.ids d
    ∧ Dataset.images d' = Dataset.images d
    ∧ Dataset.metadata d' = Dataset.metadata d
    ∧ Dataset.masker d' = Dataset.masker d
    ∧ (∀ study, study ∈ Dataset.ids d → study ∈ Dataset.ids d')
    ∧ (∀ other, other ≠ dataset → σ' !! other = σ !! other).
Proof.
  intros Hd (d0 & Hd0 & -> & -> & ->)%transform_inv.
  rewrite Hd in Hd0. injection Hd0 as <-.
  exists (snd (FocusFilter.apply self d)).
  split; [apply lookup_insert_eq|].
  rewrite apply_dataset. cbn. repeat split; [done|].
  intros other Hne. by apply lookup_insert_ne.
Qed.

(** C10: [FocusFilter.transform] mutates its input Dataset in place: the
    reference it returns is the one it was given, no object is added to the
    store, the object behind the reference now holds the filtered
    coordinate table, and so the caller's Dataset no longer contains the
    coordinate rows that fell outside the mask. *)
Theorem C10_focus_filter_mutates_in_place
    (self : FocusFilter.t) (dataset : ref) (σ : store) (d : Dataset.t) :
  σ !! dataset = Some d →
  ∃ evs σ',
    FocusFilter.transform self dataset σ = Some (evs, dataset, σ')
    ∧ σ' = <[dataset :=
               Dataset.set_coordinates d
                 (List.filter (FocusFilter.row_in_mask self d) (Dataset.coordinates d))]> σ
    ∧ dom σ' = dom σ
    ∧ (∀ row d',
         row ∈ Dataset.coordinates d →
         FocusFilter.row_in_mask self d row = false →
         σ' !! dataset = Some d' →
         row ∉ Dataset.coordinates d').
Proof.
  intros Hd. eexists _, _. split; [by apply transform_run|].
  rewrite apply_dataset. split; [done|]. split.
  - apply set_eq. intros i. rewrite dom_insert, elem_of_union, elem_of_singleton.
    split; [|by right]. intros [->|Hi]; [|done]. apply elem_of_dom. by eexists.
  - intros row d' _ Hout. rewrite lookup_insert_eq. intros [= <-]. cbn.
    intros Hin%list_elem_of_In%filter_In. destruct Hin as [_ Hin]. congruence.
Qed.
End FocusFilterProperties.

Lemma C7_focus_filter_witness :
  ∃ evs' σ'',
    FocusFilter.transform (ext := Examples.toy) Examples.focus_filter 1%positive
                          Examples.store_1_filtered
    = Some (evs', 1%positive, σ'')
    ∧ Dataset.coordinates <$> σ'' !! 1%positive
      = Dataset.coordinates <$> Examples.store_1_filtered !! 1%positive
    ∧ σ'' = Examples.store_1_filtered.
Proof.
  apply (C7_focus_filter_idempotent (ext := Examples.toy) Examples.focus_filter
           1%positive 1%positive Examples.store_1 Examples.store_1_filtered
           [Info "1/2 coordinates fall outside of the mask. Removing them."]).
  vm_compute. reflexivity.
Defined.

(** Study B loses its only coordinate row and is still a study of the
    Dataset. *)
Lemma C8_focus_filter_witness :
  ∃ d',
    Examples.store_1_filtered !! 1%positive = Some d'
    ∧ Dataset.ids d' = ["A"; "B"]
    ∧ Dataset.images d' = [("A", "a.nii.gz")]
    ∧ Dataset.metadata d' = [("A", "2019"); ("B", "2020")]
    ∧ Dataset.masker d' = Examples.first_voxel_mask
    ∧ (∀ study, study ∈ ["A"; "B"] → study ∈ Dataset.ids d')
    ∧ (∀ other, other ≠ 1%positive →
         Examples.store_1_filtered !! other = Examples.store_1 !! other).
Proof.
  apply (C8_focus_filter_changes_coordinates_only (ext := Examples.toy)
           Examples.focus_filter 1%positive 1%positive Examples.store_1
           Examples.store_1_filtered Examples.dset_in_out
           [Info "1/2 coordinates fall outside of the mask. Removing them."]).
  - reflexivity.
  - vm_compute. reflexivity.
Defined.

Lemma C10_focus_filter_witness :
  ∃ evs σ',
    FocusFilter.transform (ext := Examples.toy) Examples.focus_filter 1%positive
                          Examples.store_1
    = Some (evs, 1%positive, σ')
    ∧ σ' = <[1%positive :=
               Dataset.set_coordinates Examples.dset_in_out
                 (List.filter (FocusFilter.row_in_mask (ext := Examples.toy)
                                 Examples.focus_filter Examples.dset_in_out)
                              (Dataset.coordinates Examples.dset_in_out))]>
             Examples.store_1
    ∧ dom σ' = dom Examples.store_1
    ∧ (∀ row d',
         row ∈ Dataset.coordinates Examples.dset_in_out →
         FocusFilter.row_in_mask (ext := Examples.toy) Examples.focus_filter
                                 Examples.dset_in_out row = false →
         σ' !! 1%positive = Some d' →
         row ∉ Dataset.coordinates d').
Proof.
  apply (C10_focus_filter_mutates_in_place (ext := Examples.toy)
           Examples.focus_filter 1%positive Examples.store_1 Examples.dset_in_out).
  reflexivity.
Defined.

(** The scenario of the specification: a mask that covers voxel (0,0,0)
    only and two coordinates, one in that voxel and one far from it; the
    Dataset keeps the first, and the log reports 1 of 2 removed. *)
Example focus_filter_scenario :
  FocusFilter.apply (ext := Examples.toy) Examples.focus_filter Examples.dset_in_out
  = ([Info "1/2 coordinates fall outside of the mask. Removing them."],
     Dataset.set_coordinates Examples.dset_in_out [Examples.focus "A" 0]).
Proof. vm_compute. reflexivity. Qed.

(** ** The diagnostics run on the example *)

(** With the z map as target, voxels 0 and 2 form the one cluster; each of
    the three studies is left out once; the contribution of A, the only
    study in voxel 2, is 0.5 and that of B and of C is 0.25. *)
Example jackknife_run :
  trace (Jackknife.transform (ext := Examples.toy) Examples.jackknife_on_z
                             Examples.result_no_target)
  = [Task "A"; Task "B"; Task "C"]
  ∧ match outcome (Jackknife.transform (ext := Examples.toy)
                       Examples.jackknife_on_z Examples.result_no_target) with
    | inr (contribution_table, _, _) => Some contribution_table
    | inl _ => None
    end
    = Some {| columns := ["id"; "PosTail 1"];
             rows := [[Str "A"; Num (S754_finite false 4503599627370496 (-53))];
                      [Str "B"; Num (S754_finite false 4503599627370496 (-54))];
                      [Str "C"; Num (S754_finite false 4503599627370496 (-54))]] |}.
Proof. vm_compute. split; reflexivity. Qed.

Example focus_counter_run :
  trace (FocusCounter.transform (ext := Examples.toy) Examples.focus_counter_on_z
                                Examples.result_no_target)
  = [Task "A"; Task "B"; Task "C"]
  ∧ match outcome (FocusCounter.transform (ext := Examples.toy)
                       Examples.focus_counter_on_z Examples.result_no_target) with
    | inr (contribution_table, _, _) => Some contribution_table
    | inl _ => None
    end
    = Some {| columns := ["id"; "PosTail 1"];
             rows := [[Str "A"; Int 1]; [Str "B"; Int 1]; [Str "C"; Int 1]] |}.
Proof. vm_compute. split; reflexivity. Qed.

(** * Further properties of the diagnostics *)

(** ** Indices of an array *)

Lemma in_arange (n : nat) (x : Z) : In x (arange n) ↔ 0 ≤ x < Z.of_nat n.
Proof.
  unfold arange. rewrite in_map_iff. split.
  - intros (i & <- & Hi%in_seq). lia.
  - intros Hx. exists (Z.to_nat x). split; [lia|]. apply in_seq. lia.
Qed.

Lemma ndindex_in_bounds (sh : nat * nat * nat) (v : ijk) :
  In v (ndindex sh) ↔ in_bounds sh v = true.
Proof.
  destruct sh as [[n1 n2] n3], v as [[i j] k]. unfold ndindex, in_bounds.
  rewrite !andb_true_iff, !Z.leb_le, !Z.ltb_lt, in_flat_map. split.
  - intros (i' & Hi & Hin). apply in_flat_map in Hin as (j' & Hj & Hin).
    apply in_map_iff in Hin as (k' & [= <- <- <-] & Hk).
    apply in_arange in Hi, Hj, Hk. lia.
  - intros Hb. exists i. split; [apply in_arange; lia|].
    apply in_flat_map. exists j. split; [apply in_arange; lia|].
    apply in_map_iff. exists k. split; [done|]. apply in_arange. lia.
Qed.

(** [np.where] returns the indices inside the array at which the test
    holds, and no other. *)
Lemma np_where_spec {A} (p : A → bool) (arr : ndarray A) (v : ijk) :
  v ∈ np_where p arr ↔ in_bounds (shape arr) v = true ∧ p (item arr v) = true.
Proof.
  unfold np_where. rewrite list_elem_of_In, filter_In, ndindex_in_bounds. done.
Qed.

Lemma in_mask_spec (mask_ijk : list ijk) (coord : ijk) :
  FocusFilter.in_mask mask_ijk coord = true ↔ coord ∈ mask_ijk.
Proof.
  unfold FocusFilter.in_mask. rewrite negb_true_iff, Nat.eqb_neq. split.
  - intros Hlen. destruct (List.filter _ mask_ijk) as [|m l] eqn:Hf; [done|].
    assert (In m (List.filter (λ m, ijk_eqb m coord) mask_ijk)) as Hm
      by (rewrite Hf; by left).
    apply filter_In in Hm as [Hm Heq]. apply ijk_eqb_eq in Heq. subst m.
    by apply list_elem_of_In.
  - intros Hin Hlen. apply length_zero_iff_nil in Hlen.
    assert (In coord (List.filter (λ m, ijk_eqb m coord) mask_ijk)) as Hm.
    { apply filter_In. split; [by apply list_elem_of_In|]. by apply ijk_eqb_eq. }
    by rewrite Hlen in Hm.
Qed.

Lemma filter_sublist {A} (f : A → bool) (l : list A) : List.filter f l `sublist_of` l.
Proof.
  induction l as [|a l IH]; [done|]. cbn [List.filter].
  destruct (f a); [by apply sublist_skip | by apply sublist_cons].
Qed.

Lemma filter_comm {A} (f g : A → bool) (l : list A) :
  List.filter f (List.filter g l) = List.filter g (List.filter f l).
Proof.
  induction l as [|a l IH]; [done|]. cbn [List.filter].
  destruct (g a) eqn:Hg, (f a) eqn:Hf; cbn [List.filter]; rewrite ?Hg, ?Hf, IH; done.
Qed.

Lemma filter_andb {A} (f g : A → bool) (l : list A) :
  List.filter g (List.filter f l) = List.filter (λ a, f a && g a) l.
Proof.
  induction l as [|a l IH]; [done|]. cbn [List.filter].
  destruct (f a); cbn [andb List.filter]; [|exact IH].
  destruct (g a); by rewrite IH.
Qed.

Lemma filter_all {A} (f : A → bool) (l : list A) :
  (∀ a, a ∈ l → f a = true) → List.filter f l = l.
Proof.
  induction l as [|a l IH]; [done|]. intros Hall. cbn [List.filter].
  rewrite (Hall a) by apply list_elem_of_here. f_equal. apply IH.
  intros b Hb. apply Hall. by apply list_elem_of_further.
Qed.

Lemma filter_none {A} (f : A → bool) (l : list A) :
  (∀ a, a ∈ l → f a = false) → List.filter f l = [].
Proof.
  induction l as [|a l IH]; [done|]. intros Hall. cbn [List.filter].
  rewrite (Hall a) by apply list_elem_of_here. apply IH.
  intros b Hb. apply Hall. by apply list_elem_of_further.
Qed.

Lemma keep_idx_length {A} (g : A → ijk) (mask_ijk : list ijk) (l : list A) :
  length (FocusFilter.keep_idx mask_ijk (map g l))
  = length (List.filter (λ a, FocusFilter.in_mask mask_ijk (g a)) l).
Proof.
  unfold FocusFilter.keep_idx, FocusFilter.enumerate. rewrite length_map.
  generalize 0%nat. induction l as [|a l IH]; intros s; [done|].
  cbn [map length seq zip zip_with List.filter snd].
  destruct (FocusFilter.in_mask mask_ijk (g a)); cbn [length]; by rewrite IH.
Qed.

(** ** FocusFilter: which rows stay, what is logged, how filters combine *)

Section FocusFilterMore.
Context `{ext : Collaborators}.

Lemma row_in_mask_spec (self : FocusFilter.t) (d : Dataset.t) (row : CoordRow) :
  let mask := get_fdata (mask_img (FocusFilter.masker_for self d)) in
  let voxel := mm2vox_point (coord_xyz row)
                            (affine (mask_img (FocusFilter.masker_for self d))) in
  FocusFilter.row_in_mask self d row = true
  ↔ in_bounds (shape mask) voxel = true ∧ truthy (item mask voxel) = true.
Proof.
  intros mask voxel. unfold FocusFilter.row_in_mask.
  rewrite in_mask_spec. apply np_where_spec.
Qed.

Lemma row_in_mask_set_coordinates (self : FocusFilter.t) (d : Dataset.t)
    (df : list CoordRow) (row : CoordRow) :
  FocusFilter.row_in_mask self (Dataset.set_coordinates d df) row
  = FocusFilter.row_in_mask self d row.
Proof. reflexivity. Qed.

Lemma apply_events (self : FocusFilter.t) (d : Dataset.t) :
  fst (FocusFilter.apply self d)
  = [Info (FocusFilter.removed_message
             (length (Dataset.coordinates d))
             (length (List.filter (FocusFilter.row_in_mask self d)
                                  (Dataset.coordinates d))))].
Proof.
  unfold FocusFilter.apply, FocusFilter.filtered, mm2vox. cbn [fst].
  rewrite map_map, keep_idx_length, !length_map. reflexivity.
Qed.

(** After [transform] the coordinate table holds exactly the rows whose
    voxel index addresses an element of the mask array that is not zero, in
    the order they had. *)
Theorem focus_filter_keeps_exactly_the_rows_in_the_mask
    (self : FocusFilter.t) (dataset : ref) (σ : store) (d : Dataset.t) :
  let masker_ := FocusFilter.masker_for self d in
  let mask := get_fdata (mask_img masker_) in
  let voxel := λ row, mm2vox_point (coord_xyz row) (affine (mask_img masker_)) in
  σ !! dataset = Some d →
  ∃ evs d',
    FocusFilter.transform self dataset σ = Some (evs, dataset, <[dataset := d']> σ)
    ∧ Dataset.coordinates d' `sublist_of` Dataset.coordinates d
    ∧ ∀ row,
        row ∈ Dataset.coordinates d'
        ↔ row ∈ Dataset.coordinates d
          ∧ in_bounds (shape mask) (voxel row) = true
          ∧ truthy (item mask (voxel row)) = true.
Proof.
  intros masker_ mask voxel Hd.
  eexists _, _. split; [by apply transform_run|].
  rewrite apply_dataset. cbn [Dataset.set_coordinates Dataset.coordinates].
  split; [apply filter_sublist|].
  intros row. rewrite list_elem_of_In, filter_In, <- list_elem_of_In.
  by rewrite row_in_mask_spec.
Qed.

(** The one log record of [transform] gives the number of rows removed over
    the number of rows there were, and the Dataset is left with the
    difference. *)
Theorem focus_filter_logs_the_rows_removed
    (self : FocusFilter.t) (dataset : ref) (σ : store) (d : Dataset.t) :
  σ !! dataset = Some d →
  ∃ d',
    FocusFilter.transform self dataset σ
    = Some ([Info (FocusFilter.removed_message
                     (length (Dataset.coordinates d))
                     (length (Dataset.coordinates d')))],
            dataset, <[dataset := d']> σ)
    ∧ (length (Dataset.coordinates d') ≤ length (Dataset.coordinates d))%nat.
Proof.
  intros Hd.
  exists (Dataset.set_coordinates d
            (List.filter (FocusFilter.row_in_mask self d) (Dataset.coordinates d))).
  split.
  - rewrite (transform_run _ _ _ _ Hd), apply_events, apply_dataset. reflexivity.
  - cbn. apply sublist_length, filter_sublist.
Qed.

(** A mask without any voxel that is not zero removes every coordinate
    row. *)
Theorem focus_filter_empty_mask_removes_everything
    (self : FocusFilter.t) (dataset : ref) (σ : store) (d : Dataset.t) :
  σ !! dataset = Some d →
  np_where truthy (get_fdata (mask_img (FocusFilter.masker_for self d))) = [] →
  ∃ evs,
    FocusFilter.transform self dataset σ
    = Some (evs, dataset, <[dataset := Dataset.set_coordinates d []]> σ).
Proof.
  intros Hd Hempty. eexists. rewrite (transform_run _ _ _ _ Hd), apply_dataset.
  rewrite filter_none; [reflexivity|].
  intros row _. unfold FocusFilter.row_in_mask. by rewrite Hempty.
Qed.

(** When every coordinate row falls in the mask, [transform] leaves the
    store as it found it. *)
Theorem focus_filter_nothing_to_remove
    (self : FocusFilter.t) (dataset : ref) (σ : store) (d : Dataset.t) :
  σ !! dataset = Some d →
  (∀ row, row ∈ Dataset.coordinates d → FocusFilter.row_in_mask self d row = true) →
  FocusFilter.transform self dataset σ
  = Some ([Info (FocusFilter.removed_message (length (Dataset.coordinates d))
                                              (length (Dataset.coordinates d)))],
          dataset, σ).
Proof.
  intros Hd Hall.
  rewrite (transform_run _ _ _ _ Hd), apply_events, apply_dataset.
  rewrite filter_all by done. do 2 f_equal.
  destruct d. apply insert_id. exact Hd.
Qed.

Lemma apply_after_apply (f1 f2 : FocusFilter.t) (d : Dataset.t) :
  snd (FocusFilter.apply f2 (snd (FocusFilter.apply f1 d)))
  = Dataset.set_coordinates d
      (List.filter (λ row, FocusFilter.row_in_mask f1 d row
                           && FocusFilter.row_in_mask f2 d row)
                   (Dataset.coordinates d)).
Proof.
  rewrite (apply_dataset f2), (apply_dataset f1).
  unfold Dataset.set_coordinates at 1.
  cbn [Dataset.ids Dataset.coordinates Dataset.images Dataset.metadata
       Dataset.masker Dataset.set_coordinates].
  unfold Dataset.set_coordinates. f_equal.
  rewrite <- filter_andb. apply filter_ext. reflexivity.
Qed.

(** Two filters can be applied in either order: the Dataset ends up with
    the rows that fall in both masks. *)
Theorem focus_filter_filters_commute
    (f1 f2 : FocusFilter.t) (dataset : ref) (σ : store) (d : Dataset.t) :
  σ !! dataset = Some d →
  ∃ evs1 evs2 evs1' evs2' σ1 σ2 σ12,
    FocusFilter.transform f1 dataset σ = Some (evs1, dataset, σ1)
    ∧ FocusFilter.transform f2 dataset σ1 = Some (evs2, dataset, σ12)
    ∧ FocusFilter.transform f2 dataset σ = Some (evs2', dataset, σ2)
    ∧ FocusFilter.transform f1 dataset σ2 = Some (evs1', dataset, σ12)
    ∧ σ12 = <[dataset :=
                Dataset.set_coordinates d
                  (List.filter (λ row, FocusFilter.row_in_mask f1 d row
                                       && FocusFilter.row_in_mask f2 d row)
                               (Dataset.coordinates d))]> σ.
Proof.
  intros Hd.
  eexists _, _, _, _, _, _, _.
  split; [by apply transform_run|].
  split; [apply transform_run, lookup_insert_eq|].
  split; [by apply transform_run|].
  split.
  - rewrite (transform_run f1 dataset _ _ (lookup_insert_eq _ _ _)).
    rewrite !apply_after_apply, !insert_insert_eq. do 4 f_equal.
    apply filter_ext. intros row. apply andb_comm.
  - by rewrite apply_after_apply, insert_insert_eq.
Qed.
End FocusFilterMore.

(** The filter of the scenario keeps the row of study A, which falls in the
    one voxel of the mask, and drops the row of study B. *)
Lemma focus_filter_keeps_exactly_the_rows_in_the_mask_witness :
  ∃ evs d',
    FocusFilter.transform (ext := Examples.toy) Examples.focus_filter 1%positive
                          Examples.store_1
    = Some (evs, 1%positive, <[1%positive := d']> Examples.store_1)
    ∧ Dataset.coordinates d' `sublist_of` Dataset.coordinates Examples.dset_in_out
    ∧ ∀ row,
        row ∈ Dataset.coordinates d'
        ↔ row ∈ Dataset.coordinates Examples.dset_in_out
          ∧ in_bounds (3, 1, 1)%nat
              (Examples.trunc_mm2vox (coord_xyz row) Examples.identity_affine) = true
          ∧ truthy (item (Examples.row3 one zero zero)
                         (Examples.trunc_mm2vox (coord_xyz row)
                                                Examples.identity_affine)) = true.
Proof.
  apply (focus_filter_keeps_exactly_the_rows_in_the_mask (ext := Examples.toy)
           Examples.focus_filter 1%positive Examples.store_1 Examples.dset_in_out).
  reflexivity.
Defined.

Lemma focus_filter_logs_the_rows_removed_witness :
  ∃ d',
    FocusFilter.transform (ext := Examples.toy) Examples.focus_filter 1%positive
                          Examples.store_1
    = Some ([Info (FocusFilter.removed_message 2 (length (Dataset.coordinates d')))],
            1%positive, <[1%positive := d']> Examples.store_1)
    ∧ (length (Dataset.coordinates d') ≤ 2)%nat.
Proof.
  apply (focus_filter_logs_the_rows_removed (ext := Examples.toy)
           Examples.focus_filter 1%positive Examples.store_1 Examples.dset_in_out).
  reflexivity.
Defined.

(** A filter whose own mask is zero everywhere empties the coordinate
    table. *)
Lemma focus_filter_empty_mask_removes_everything_witness :
  ∃ evs,
    FocusFilter.transform (ext := Examples.toy)
      {| FocusFilter.masker := Some (mk_masker (Examples.volume zero zero zero)) |}
      1%positive Examples.store_1
    = Some (evs, 1%positive,
            <[1%positive := Dataset.set_coordinates Examples.dset_in_out []]>
              Examples.store_1).
Proof.
  apply (focus_filter_empty_mask_removes_everything (ext := Examples.toy)
           {| FocusFilter.masker := Some (mk_masker (Examples.volume zero zero zero)) |}
           1%positive Examples.store_1 Examples.dset_in_out).
  - reflexivity.
  - vm_compute. reflexivity.
Defined.

(** The three foci of studies A, B and C all fall in the mask of their
    Dataset, which covers the grid. *)
Lemma focus_filter_nothing_to_remove_witness :
  FocusFilter.transform (ext := Examples.toy) Examples.focus_filter 1%positive
                        {[ 1%positive := Examples.dset_ABC ]}
  = Some ([Info (FocusFilter.removed_message 3 3)], 1%positive,
          {[ 1%positive := Examples.dset_ABC ]}).
Proof.
  apply (focus_filter_nothing_to_remove (ext := Examples.toy) Examples.focus_filter
           1%positive {[ 1%positive := Examples.dset_ABC ]} Examples.dset_ABC).
  - reflexivity.
  - intros row Hrow. cbn [Dataset.coordinates Examples.dset_ABC Examples.foci_ABC] in Hrow.
    repeat (apply elem_of_cons in Hrow as [->|Hrow]); [..|by apply elem_of_nil in Hrow];
      vm_compute; reflexivity.
Defined.

(** The filter of the Dataset's own mask and a filter with the mask that
    covers the grid, in either order. *)
Lemma focus_filter_filters_commute_witness :
  let f1 := Examples.focus_filter in
  let f2 := {| FocusFilter.masker := Some Examples.whole_mask |} in
  ∃ evs1 evs2 evs1' evs2' σ1 σ2 σ12,
    FocusFilter.transform (ext := Examples.toy) f1 1%positive Examples.store_1
    = Some (evs1, 1%positive, σ1)
    ∧ FocusFilter.transform (ext := Examples.toy) f2 1%positive σ1
      = Some (evs2, 1%positive, σ12)
    ∧ FocusFilter.transform (ext := Examples.toy) f2 1%positive Examples.store_1
      = Some (evs2', 1%positive, σ2)
    ∧ FocusFilter.transform (ext := Examples.toy) f1 1%positive σ2
      = Some (evs1', 1%positive, σ12)
    ∧ σ12 = <[1%positive :=
                Dataset.set_coordinates Examples.dset_in_out
                  (List.filter
                     (λ row, FocusFilter.row_in_mask (ext := Examples.toy) f1
                               Examples.dset_in_out row
                             && FocusFilter.row_in_mask (ext := Examples.toy) f2
                                  Examples.dset_in_out row)
                     (Dataset.coordinates Examples.dset_in_out))]> Examples.store_1.
Proof.
  intros f1 f2.
  apply (focus_filter_filters_commute (ext := Examples.toy) f1 f2 1%positive
           Examples.store_1 Examples.dset_in_out).
  reflexivity.
Defined.

(** ** FocusCounter: bounds and composition of the counts *)

(** Two floats that compare equal are the same value, or both a zero. *)
Lemma np_equal_true (a b : float64) :
  np_equal a b = true →
  a = b ∨ ∃ s s', a = S754_zero s ∧ b = S754_zero s'.
Proof.
  unfold np_equal, SFeqb.
  destruct a as [sa|sa| |sa ma ea], b as [sb|sb| |sb mb eb]; cbn [SFcompare];
    try discriminate; try (destruct sa; discriminate); try (destruct sb; discriminate).
  - intros _. right. eauto.
  - destruct sa, sb; try discriminate; intros _; by left.
  - change (Pos.compare_cont Eq ma mb) with (Pos.compare ma mb).
    destruct sa, sb; try discriminate;
      destruct (Z.compare ea eb) eqn:He; try discriminate;
      destruct (Pos.compare ma mb) eqn:Hm; try discriminate;
      apply Z.compare_eq in He; apply Pos.compare_eq in Hm; subst; intros _; by left.
Qed.

(** Two labels that a voxel's value both equals are equal to each other. *)
Lemma np_equal_common (l c1 c2 : float64) :
  np_equal l c1 = true → np_equal l c2 = true → np_equal c1 c2 = true.
Proof.
  intros H1 H2.
  assert (Hn : c1 ≠ S754_nan).
  { intros ->. unfold np_equal, SFeqb in H1. by destruct l as [| | |[]]. }
  destruct (np_equal_true _ _ H1) as [->|(s & s1 & -> & ->)]; [exact H2|].
  destruct (np_equal_true _ _ H2) as [<-|(s' & s2 & _ & ->)]; reflexivity.
Qed.

Lemma length_filter_le {A} (f : A → bool) (l : list A) :
  (length (List.filter f l) ≤ length l)%nat.
Proof. apply sublist_length, filter_sublist. Qed.

(** Two selections that exclude each other take at most the whole list. *)
Lemma length_filter_disjoint {A} (f g : A → bool) (l : list A) :
  (∀ a, f a = true → g a = true → False) →
  (length (List.filter f l) + length (List.filter g l) ≤ length l)%nat.
Proof.
  intros Hfg. induction l as [|a l IH]; [done|]. cbn [List.filter].
  destruct (f a) eqn:Hf, (g a) eqn:Hg; cbn [length]; try lia.
  exfalso. by eapply Hfg.
Qed.

Lemma zip_with_add_map {A} (f g : A → Z) (l : list A) :
  zip_with Z.add (map f l) (map g l) = map (λ a, f a + g a) l.
Proof. induction l as [|a l IH]; [done|]. cbn. by rewrite IH. Qed.

Section FocusCounterMore.
Context `{ext : Collaborators}.

(** No count exceeds the number of coordinate rows of the study. *)
Theorem focus_counter_counts_at_most_the_peaks
    (self : FocusCounter.t) (expid : string) (coordinates_df : list CoordRow)
    (labeled_cluster_map : ndarray float64) (affine_ : Affine) :
  Forall (λ n, n ≤ Z.of_nat (length (List.filter (λ r, String.eqb (coord_id r) expid)
                                                 coordinates_df)))
         (snd (FocusCounter._transform self expid coordinates_df
                                       labeled_cluster_map affine_)).
Proof.
  rewrite focus_counter_transform_counts. cbn [snd].
  apply Forall_forall. intros n Hn.
  apply list_elem_of_In, in_map_iff in Hn as (c & <- & _).
  apply inj_le. etrans; [apply length_filter_le|].
  unfold mm2vox. by rewrite !length_map.
Qed.

(** The counts of a coordinate table made of two parts are the sums of the
    counts of the parts, cluster by cluster. *)
Theorem focus_counter_counts_add_up
    (self : FocusCounter.t) (expid : string) (df1 df2 : list CoordRow)
    (labeled_cluster_map : ndarray float64) (affine_ : Affine) :
  snd (FocusCounter._transform self expid (df1 ++ df2) labeled_cluster_map affine_)
  = zip_with Z.add
      (snd (FocusCounter._transform self expid df1 labeled_cluster_map affine_))
      (snd (FocusCounter._transform self expid df2 labeled_cluster_map affine_)).
Proof.
  rewrite !focus_counter_transform_counts. cbn [snd].
  rewrite zip_with_add_map. apply map_ext. intros c.
  unfold mm2vox. rewrite List.filter_app, !map_app, List.filter_app, length_app. lia.
Qed.

(** A peak whose voxel index does not address an element of the labelled
    array is counted for no cluster: when all the peaks of the study are
    such, every count is 0. *)
Theorem focus_counter_peaks_outside_the_array_are_not_counted
    (self : FocusCounter.t) (expid : string) (coordinates_df : list CoordRow)
    (labeled_cluster_map : ndarray float64) (affine_ : Affine) :
  (∀ row, row ∈ coordinates_df → coord_id row = expid →
          in_bounds (shape labeled_cluster_map)
                    (mm2vox_point (coord_xyz row) affine_) = false) →
  Forall (λ n, n = 0)
         (snd (FocusCounter._transform self expid coordinates_df
                                       labeled_cluster_map affine_)).
Proof.
  intros Hout. rewrite focus_counter_transform_counts. cbn [snd].
  apply Forall_forall. intros n Hn.
  apply list_elem_of_In, in_map_iff in Hn as (c & <- & _).
  rewrite filter_none; [done|].
  intros p Hp. unfold mm2vox in Hp. rewrite map_map in Hp.
  apply list_elem_of_In, in_map_iff in Hp as (row & <- & Hrow).
  apply filter_In in Hrow as [Hrow Hid]. apply String.eqb_eq in Hid.
  apply not_true_is_false. intros Hex.
  apply existsb_exists in Hex as (u & Hu & Hlt).
  rewrite sqdist_lt_1 in Hlt. apply ijk_eqb_eq in Hlt. subst u.
  apply list_elem_of_In, np_where_spec in Hu as [Hb _].
  rewrite Hout in Hb; [done|by apply list_elem_of_In|done].
Qed.

(** No peak is counted for two clusters with different labels: the counts
    of a study for two such clusters together do not exceed the number of
    its coordinate rows. *)
Theorem focus_counter_clusters_share_no_peak
    (self : FocusCounter.t) (expid : string) (coordinates_df : list CoordRow)
    (labeled_cluster_map : ndarray float64) (affine_ : Affine)
    (k1 k2 : nat) (c1 c2 : float64) :
  let counts :=
    snd (FocusCounter._transform self expid coordinates_df labeled_cluster_map affine_) in
  cluster_ids_of labeled_cluster_map !! k1 = Some c1 →
  cluster_ids_of labeled_cluster_map !! k2 = Some c2 →
  np_equal c1 c2 = false →
  ∃ n1 n2,
    counts !! k1 = Some n1 ∧ counts !! k2 = Some n2
    ∧ n1 + n2 ≤ Z.of_nat (length (List.filter (λ r, String.eqb (coord_id r) expid)
                                              coordinates_df)).
Proof.
  intros counts Hk1 Hk2 Hne. subst counts.
  rewrite focus_counter_transform_counts. cbn [snd].
  rewrite !lookup_map, Hk1, Hk2. eexists _, _. split; [done|]. split; [done|].
  rewrite <- Nat2Z.inj_add. apply inj_le.
  etrans; [apply length_filter_disjoint|unfold mm2vox; by rewrite !length_map].
  intros p H1 H2.
  apply existsb_exists in H1 as (u1 & Hu1 & Hlt1).
  apply existsb_exists in H2 as (u2 & Hu2 & Hlt2).
  rewrite sqdist_lt_1 in Hlt1, Hlt2.
  apply ijk_eqb_eq in Hlt1, Hlt2. subst u1 u2.
  apply list_elem_of_In, np_where_spec in Hu1 as [_ Hu1].
  apply list_elem_of_In, np_where_spec in Hu2 as [_ Hu2].
  by rewrite (np_equal_common _ _ _ Hu1 Hu2) in Hne.
Qed.
End FocusCounterMore.

(** The only coordinate row of study B lies five voxels along the first
    axis, outside the grid of three. *)
Lemma focus_counter_peaks_outside_the_array_are_not_counted_witness :
  Forall (λ n, n = 0)
         (snd (FocusCounter._transform (ext := Examples.toy) Examples.focus_counter "B"
                 (Dataset.coordinates Examples.dset_in_out)
                 (get_fdata Examples.cluster_01) Examples.identity_affine)).
Proof.
  apply (focus_counter_peaks_outside_the_array_are_not_counted (ext := Examples.toy)
           Examples.focus_counter "B" (Dataset.coordinates Examples.dset_in_out)
           (get_fdata Examples.cluster_01) Examples.identity_affine).
  intros row Hrow Hid.
  cbn [Dataset.coordinates Examples.dset_in_out] in Hrow.
  apply elem_of_cons in Hrow as [->|Hrow]; [discriminate Hid|].
  apply elem_of_cons in Hrow as [->|Hrow]; [|by apply elem_of_nil in Hrow].
  vm_compute. reflexivity.
Defined.

(** Voxel 0 is cluster 1 and voxel 1 is cluster 2: the two counts of a
    study over the foci of A, B and C do not exceed the number of its rows. *)
Lemma focus_counter_clusters_share_no_peak_witness :
  let two_clusters := Examples.row3 one (float_of_int 2) zero in
  ∃ n1 n2,
    snd (FocusCounter._transform (ext := Examples.toy) Examples.focus_counter "B"
           Examples.foci_ABC two_clusters Examples.identity_affine) !! 0%nat = Some n1
    ∧ snd (FocusCounter._transform (ext := Examples.toy) Examples.focus_counter "B"
             Examples.foci_ABC two_clusters Examples.identity_affine) !! 1%nat = Some n2
    ∧ n1 + n2 ≤ Z.of_nat (length (List.filter (λ r, String.eqb (coord_id r) "B")
                                              Examples.foci_ABC)).
Proof.
  intros two_clusters.
  apply (focus_counter_clusters_share_no_peak (ext := Examples.toy)
           Examples.focus_counter "B" Examples.foci_ABC two_clusters
           Examples.identity_affine 0 1 one (float_of_int 2)).
  - vm_compute. reflexivity.
  - vm_compute. reflexivity.
  - vm_compute. reflexivity.
Defined.

(** ** Runs: what a successful run has logged *)

Lemma bind_inr {A B} (m : Run A) (k : A → Run B) (b : B) :
  outcome (bind m k) = inr b →
  ∃ a, outcome m = inr a
       ∧ outcome (k a) = inr b
       ∧ trace (bind m k) = trace m ++ trace (k a).
Proof.
  destruct m as [evs [e|a]]; cbn; [discriminate|].
  destruct (k a) as [evs' r] eqn:Hk. cbn. intros ->. exists a. by rewrite Hk.
Qed.

Lemma for_each_inr {A B} (f : A → Run B) (l : list A) (bs : list B) :
  outcome (for_each f l) = inr bs →
  trace (for_each f l) = flat_map (λ a, trace (f a)) l
  ∧ Forall2 (λ a b, outcome (f a) = inr b) l bs.
Proof.
  revert bs. induction l as [|a l IH]; intros bs; cbn [for_each].
  - intros [= <-]. split; [done|constructor].
  - intros (b & Hb & Hrest & ->)%bind_inr.
    apply bind_inr in Hrest as (bs' & Hbs' & Hret & ->).
    injection Hret as <-. destruct (IH _ Hbs') as [-> HF].
    cbn [flat_map trace ret fst]. rewrite app_nil_r. split; [done|by constructor].
Qed.


Lemma flat_map_singleton {A B} (f : A → B) (l : list A) :
  flat_map (λ a, [f a]) l = map f l.
Proof. induction l as [|a l IH]; [done|]. cbn. by rewrite IH. Qed.

Lemma loc_set_trace (t : IndexedFrame) (label : string) (vals : list cell) :
  trace (loc_set t label vals) = [].
Proof.
  unfold loc_set. destruct (negb _); [done|]. by destruct (existsb _ _).
Qed.

Lemma fold_loc_set_trace {X} (row_of : X → string * list cell) (l : list X) :
  ∀ t : IndexedFrame,
    trace (fold_run (λ tbl x, loc_set tbl (fst (row_of x)) (snd (row_of x))) t l) = [].
Proof.
  induction l as [|x l IH]; intros t; [done|]. cbn [fold_run].
  pose proof (loc_set_trace t (fst (row_of x)) (snd (row_of x))) as Ht.
  destruct (loc_set t _ _) as [evs [e|t']]; cbn in Ht; subst evs; [done|].
  cbn [bind]. specialize (IH t').
  destruct (fold_run _ t' l) as [evs' r]. cbn in IH. by subst evs'.
Qed.





Lemma fold_run_ext {A S} (f f' : S → A → Run S) (l : list A) :
  (∀ s a, f s a = f' s a) → ∀ s, fold_run f s l = fold_run f' s l.
Proof.
  intros Hf. induction l as [|a l IH]; intros s; [done|]. cbn [fold_run].
  rewrite Hf. destruct (f' s a) as [evs [e|s']]; [done|]. cbn [bind]. by rewrite IH.
Qed.


(** ** FocusCounter.transform: the table of counts *)

Section FocusCounterTransform.
Context `{ext : Collaborators}.



(** Without clusters [FocusCounter.transform] returns what the Jackknife
    returns, and it does so without reading any value map: a table with the
    [id] column and one row per retained study, the clusters table and the
    labelled maps of the extractor, and one warning. *)
Theorem focus_counter_transform_without_clusters
    (fc : FocusCounter.t) (result : MetaResult.t) (dset : Dataset.t)
    (target_img : Nifti1Image) (clusters_table : DataFrame)
    (label_maps : list Nifti1Image) :
  Estimator.dataset (MetaResult.estimator result) = Some dset →
  get (MetaResult.maps result) (FocusCounter.target_image fc) = Some target_img →
  _get_clusters_table target_img (or_zero (FocusCounter.voxel_thresh fc))
                      (any_negative (get_fdata target_img))
    = (clusters_table, label_maps) →
  rows clusters_table = [] →
  FocusCounter.transform fc result
  = ([Warning "No clusters found"],
     inr ({| columns := ["id"];
             rows := map (λ study_id, [Str study_id])
                         (Estimator.inputs_id (MetaResult.estimator result)) |},
          clusters_table, label_maps)).
Proof.
  intros Hsome Htarget Hclusters Hrows.
  unfold FocusCounter.transform, MetaResult.get_map_image, deepcopy.
  rewrite Hsome, (contains_get _ _ _ Htarget), Htarget. cbn [bind ret app].
  by rewrite Hclusters, Hrows.
Qed.
End FocusCounterTransform.


Lemma focus_counter_transform_without_clusters_witness :
  FocusCounter.transform (ext := Examples.toy) Examples.focus_counter
                         Examples.result_no_clusters
  = ([Warning "No clusters found"],
     inr ({| columns := ["id"]; rows := [[Str "A"]; [Str "B"]; [Str "C"]] |},
          {| columns := ["Cluster ID"; "Cluster Size (mm3)"]; rows := [] |},
          snd (Examples.threshold_clusters (Examples.volume zero zero zero) zero false))).
Proof.
  apply (focus_counter_transform_without_clusters (ext := Examples.toy)
           Examples.focus_counter Examples.result_no_clusters Examples.dset_ABC
           (Examples.volume zero zero zero)).
  - reflexivity.
  - reflexivity.
  - reflexivity.
  - reflexivity.
Defined.

(** ** Jackknife.transform: the tasks of a run that returns *)

Lemma trace_emit_bind {B} (ev : event) (k : unit → Run B) :
  trace (bind (emit ev) k) = ev :: trace (k tt).
Proof. cbn. by destruct (k tt). Qed.

Lemma get_map_image_trace (r : MetaResult.t) (name : string) :
  trace (MetaResult.get_map_image r name) = [].
Proof. unfold MetaResult.get_map_image. by destruct (get _ _). Qed.

Lemma get_map_array_trace (r : MetaResult.t) (name : string) :
  trace (MetaResult.get_map_array r name) = [].
Proof.
  unfold MetaResult.get_map_array, MetaResult.get_map_image. by destruct (get _ _).
Qed.

Lemma concat_trace (tables : list DataFrame) : trace (concat tables) = [].
Proof. by destruct tables. Qed.

Section JackknifeTransform.
Context `{ext : Collaborators}.

(** A leave-one-out task logs nothing of its own. *)
Lemma jackknife_task_trace
    (self : Jackknife.t) (expid : string) (all_ids : list string)
    (dset : Dataset.t) (estimator : Estimator.t) (target_value_map : string)
    (stat_values : list float64) (original_masker : NiftiMasker)
    (cluster_masker : NiftiLabelsMasker) :
  trace (Jackknife._transform self expid all_ids dset estimator target_value_map
                              stat_values original_masker cluster_masker) = [].
Proof.
  unfold Jackknife._transform, MetaResult.get_map_image. by destruct (get _ _).
Qed.

Lemma jackknife_tail_table_inr
    (self : Jackknife.t) (rows_ meta_ids : list string) (dset : Dataset.t)
    (estimator : Estimator.t) (target_value_map : string)
    (stat_values : list float64) (original_masker : NiftiMasker)
    (sign : Z) (label_map : Nifti1Image) (table : DataFrame) :
  outcome (Jackknife.tail_table self rows_ meta_ids dset estimator target_value_map
                                stat_values original_masker sign label_map)
    = inr table →
  trace (Jackknife.tail_table self rows_ meta_ids dset estimator target_value_map
                              stat_values original_masker sign label_map)
    = map Task meta_ids.
Proof.
  unfold Jackknife.tail_table.
  intros (results & Hpar & Hrest & ->)%bind_inr.
  apply bind_inr in Hrest as (tbl & Hfold & Hret & ->).
  unfold Parallel in *. apply for_each_inr in Hpar as [-> _].
  rewrite (fold_run_ext _ (λ tbl x, loc_set tbl (fst (fst x, map Num (snd x)))
                                          (snd (fst x, map Num (snd x)))))
    by (by intros ? []).
  rewrite (fold_loc_set_trace (λ x : string * list float64, (fst x, map Num (snd x)))).
  cbn [trace ret fst]. rewrite !app_nil_r.
  rewrite <- flat_map_singleton. apply flat_map_ext. intros study_id.
  by rewrite trace_emit_bind, jackknife_task_trace.
Qed.

(** Whenever [Jackknife.transform] returns with clusters, it has run one
    leave-one-out task per retained study and per tail, in the order of the
    retained study ids, and logged nothing else; the clusters table and the
    labelled maps it returns are those of the extractor. *)
Theorem jackknife_transform_runs_one_task_per_study_and_tail
    (jk : Jackknife.t) (result : MetaResult.t)
    (contribution_table clusters_table : DataFrame) (label_maps : list Nifti1Image) :
  let meta_ids := Estimator.inputs_id (MetaResult.estimator result) in
  let signs := if Nat.eqb (length label_maps) 2 then [1; -1] else [1] in
  outcome (Jackknife.transform jk result)
    = inr (contribution_table, clusters_table, label_maps) →
  rows clusters_table ≠ [] →
  trace (Jackknife.transform jk result)
    = flat_map (λ _, map Task meta_ids) (zip signs label_maps)
  ∧ ∃ target_img,
      get (MetaResult.maps result) (Jackknife.target_image jk) = Some target_img
      ∧ _get_clusters_table target_img (or_zero (Jackknife.voxel_thresh jk))
                            (any_negative (get_fdata target_img))
        = (clusters_table, label_maps).
Proof.
  intros meta_ids signs. unfold Jackknife.transform, deepcopy.
  destruct (Estimator.dataset (MetaResult.estimator result)) as [dset|];
    [|discriminate].
  intros (target_img & Htarget & Hrest & ->)%bind_inr Hrows.
  assert (get (MetaResult.maps result) (Jackknife.target_image jk) = Some target_img
          ∧ trace (if contains (MetaResult.maps result) (Jackknife.target_image jk)
                   then MetaResult.get_map_image result (Jackknife.target_image jk)
                   else raise (ValueError (not_present_message
                                             (Jackknife.target_image jk)
                                             (MetaResult.maps result)))) = [])
    as [Hget ->].
  { destruct (contains _ _); [|discriminate].
    unfold MetaResult.get_map_image in *.
    destruct (get _ _) as [img|]; [|discriminate].
    injection Htarget as ->. by split. }
  apply bind_inr in Hrest as (stat_values & _ & Hrest & ->).
  rewrite get_map_array_trace. cbn [app].
  destruct (_get_clusters_table target_img _ _) as [ct lms] eqn:Hct.
  destruct (Nat.eqb (length (rows ct)) 0) eqn:Hzero.
  { exfalso. apply bind_inr in Hrest as (_ & _ & Hret & _).
    injection Hret as _ -> _. apply Nat.eqb_eq, length_zero_iff_nil in Hzero. done. }
  apply bind_inr in Hrest as (tables & Htables & Hrest & ->).
  apply bind_inr in Hrest as (table & _ & Hret & ->).
  injection Hret as _ -> ->. rewrite concat_trace. cbn [trace ret fst].
  rewrite !app_nil_r. split; [|by exists target_img].
  apply for_each_inr in Htables as [-> Hall].
  fold meta_ids in Hall |- *. fold signs in Hall |- *.
  induction Hall as [|[sign lm] t tails ts Ht _ IH]; [done|].
  cbn [flat_map]. rewrite IH. f_equal.
  by eapply jackknife_tail_table_inr.
Qed.
End JackknifeTransform.

(** The run over studies A, B and C with the z map as target returns with
    one cluster: its trace is the three tasks. *)
Lemma jackknife_transform_runs_one_task_per_study_and_tail_witness :
  let z := Examples.volume one zero one in
  trace (Jackknife.transform (ext := Examples.toy) Examples.jackknife_on_z
                             Examples.result_no_target)
    = [Task "A"; Task "B"; Task "C"]
  ∧ ∃ target_img,
      get (MetaResult.maps Examples.result_no_target) "z" = Some target_img
      ∧ Examples.threshold_clusters target_img zero (any_negative (get_fdata target_img))
        = (fst (Examples.threshold_clusters z zero false),
           snd (Examples.threshold_clusters z zero false)).
Proof.
  intros z.
  apply (jackknife_transform_runs_one_task_per_study_and_tail (ext := Examples.toy)
           Examples.jackknife_on_z Examples.result_no_target
           {| columns := ["id"; "PosTail 1"];
              rows := [[Str "A"; Num (S754_finite false 4503599627370496 (-53))];
                       [Str "B"; Num (S754_finite false 4503599627370496 (-54))];
                       [Str "C"; Num (S754_finite false 4503599627370496 (-54))]] |}
           (fst (Examples.threshold_clusters z zero false))
           (snd (Examples.threshold_clusters z zero false))).
  - vm_compute. reflexivity.
  - vm_compute. discriminate.
Defined.

(** ** Jackknife.transform: when it returns *)


Section JackknifeReturns.
Context `{ext : Collaborators}.


End JackknifeReturns.


(** ** Jackknife: the reduction is always a number *)

Lemma shr_fexp_nonneg (m e : Z) (l : location) :
  0 ≤ m → 0 ≤ shr_m (fst (shr_fexp prec emax m e l)).
Proof.
  intros Hm. unfold shr_fexp, shr.
  assert (Hr : shr_m (shr_record_of_loc m l) = m)
    by (destruct l as [|[]]; reflexivity).
  destruct (fexp prec emax (Zdigits2 m + e) - e) as [|n|n]; cbn [fst];
    rewrite ?Hr; try done.
  rewrite shr_iter_m by (by rewrite Hr). rewrite Hr. apply Z.div_pos; lia.
Qed.

Lemma round_nearest_even_nonneg (m : Z) (l : location) :
  0 ≤ m → 0 ≤ round_nearest_even m l.
Proof. destruct l as [|[]]; simpl; try lia. destruct (Z.even m); lia. Qed.

(** Rounding a mantissa that is not negative never gives NaN. *)
Lemma binary_round_aux_not_nan (s : bool) (m e : Z) (l : location) :
  0 ≤ m → binary_round_aux prec emax s m e l ≠ S754_nan.
Proof.
  intros Hm. unfold binary_round_aux.
  pose proof (shr_fexp_nonneg m e l Hm) as H1.
  destruct (shr_fexp prec emax m e l) as [mrs1 e1]. cbn [fst] in H1.
  pose proof (round_nearest_even_nonneg _ (loc_of_shr_record mrs1) H1) as H2.
  pose proof (shr_fexp_nonneg _ e1 loc_Exact H2) as H3.
  destruct (shr_fexp prec emax _ e1 loc_Exact) as [mrs3 e3]. cbn [fst] in H3.
  destruct (shr_m mrs3) as [|m3|m3]; try lia; [done|].
  by destruct (e3 <=? emax - prec).
Qed.

Lemma binary_normalize_not_nan (m e : Z) (szero : bool) :
  binary_normalize prec emax m e szero ≠ S754_nan.
Proof.
  unfold binary_normalize, binary_round. destruct m as [|p|p]; [done| |].
  all: destruct (shl_align p e _) as [mz ez]; by apply binary_round_aux_not_nan.
Qed.

Lemma nan_to_num_number (x : float64) :
  (∃ s, nan_to_num x = S754_zero s) ∨ (∃ s m e, nan_to_num x = S754_finite s m e).
Proof.
  destruct x as [s|[]| |s m e]; cbn; eauto.
Qed.

(** The voxelwise reduction is never NaN, whatever the two statistics are,
    NaN and infinities included. *)
Theorem jackknife_reduction_is_never_nan (t s : float64) :
  Jackknife.proportional_reduction t s ≠ S754_nan.
Proof.
  unfold Jackknife.proportional_reduction.
  destruct (nan_to_num_number (np_true_divide t s)) as [[sz ->]|(sx & mx & ex & ->)].
  - vm_compute. discriminate.
  - unfold np_subtract, one. cbn [SFsub]. apply binary_normalize_not_nan.
Qed.

(** Where the re-fit statistic is zero over an original statistic that is
    neither zero nor NaN, the reduction is exactly 1: the study accounts for
    the whole of the statistic there. *)
Theorem jackknife_reduction_of_a_vanished_statistic (st : bool) (s : float64) :
  truthy s = true → s ≠ S754_nan →
  Jackknife.proportional_reduction (S754_zero st) s = one.
Proof.
  destruct s as [ss|ss| |ss m e]; intros Ht Hn; try done; by destruct st, ss.
Qed.

(** Wherever one of the two statistics is NaN, the reduction is 1: the NaN
    ratio is replaced by 0 before it is taken from 1. *)
Theorem jackknife_reduction_of_a_nan_statistic (t s : float64) :
  t = S754_nan ∨ s = S754_nan → Jackknife.proportional_reduction t s = one.
Proof.
  intros [-> | ->]; [by destruct s as [| | |]|by destruct t as [| | |]].
Qed.

(** A statistic of 1 that the re-fit brings to 0. *)
Lemma jackknife_reduction_of_a_vanished_statistic_witness :
  Jackknife.proportional_reduction zero one = one.
Proof.
  apply (jackknife_reduction_of_a_vanished_statistic false one).
  - reflexivity.
  - discriminate.
Defined.

Lemma jackknife_reduction_of_a_nan_statistic_witness :
  Jackknife.proportional_reduction S754_nan one = one.
Proof.
  apply (jackknife_reduction_of_a_nan_statistic S754_nan one). left. reflexivity.
Defined.

(** ** The CBMA workflow: what its checks refuse *)

Section WorkflowProperties.
Context `{wf : Workflow.Collaborators}.
Import Workflow.






End WorkflowProperties.





